(** * Market trading dashboard: signal and position-sizing engine

    A shallow embedding of the Python sources
    [market_dashboard/forex_data_processor.py],
    [market_dashboard/dashboard.py] and
    [market_dashboard/yahoo_currency_wrapper.py].

    Number model.  Python [float] values are read as real numbers, so every
    statement below is one of exact arithmetic; rounding is not modelled.
    Conditions on numbers ([<], [>], [>=]) are decided with the order of
    [R].  Division follows Python: a zero divisor raises
    [ZeroDivisionError] ([pydiv]); a division by a literal other than zero
    is written with [/].  The arguments of the position sizer are Python
    floats, as its docstring has them; on numpy scalars a zero divisor
    gives [nan] or an infinity with a warning where Python raises.
    Exceptions are kept by class, without their message.  [InvalidInputError] is the class named by the specification
    for rejected inputs.  The pandas pipeline of the RSI works on values
    that may be [NaN] or infinite; those get a type of their own
    ([npfloat], further down). *)

From Stdlib Require Import Reals Lra Lia Bool String Ascii List.
From Stdlib Require Import Permutation Sorted.
Import ListNotations.

Local Open Scope string_scope.
Local Open Scope list_scope.
Local Open Scope R_scope.

(** ** Python exceptions and fallible results *)

Inductive exn : Type :=
| ZeroDivisionError
| KeyError
| ValueError
| IndexError
| Exception
| InvalidInputError.

Inductive result (A : Type) : Type :=
| Ok (a : A)
| Raise (e : exn).

Arguments Ok {A} a.
Arguments Raise {A} e.

Definition bind {A B : Type} (m : result A) (k : A -> result B) : result B :=
  match m with
  | Ok a => k a
  | Raise e => Raise e
  end.

Notation "x <- m ;; k" := (bind m (fun x => k))
  (at level 61, m at next level, right associativity).

(** ** Comparisons and division on numbers *)

Definition ltb (x y : R) : bool := if Rlt_dec x y then true else false.
Definition gtb (x y : R) : bool := ltb y x.
Definition geb (x y : R) : bool := if Rle_dec y x then true else false.

Infix "<?" := ltb (at level 70) : R_scope.
Infix ">?" := gtb (at level 70) : R_scope.
Infix ">=?" := geb (at level 70) : R_scope.

(** [x / y] of two Python floats. *)
Definition pydiv (x y : R) : result R :=
  if Req_dec_T y 0 then Raise ZeroDivisionError else Ok (x / y).

(** ** Dictionaries

    A [dict] literal is kept as the list of its [key: value] items in
    source order.  Python keeps the value of the last item when a key is
    repeated, and so does [dict_lookup]. *)

Fixpoint dict_lookup {V : Type} (k : string) (d : list (string * V)) : option V :=
  match d with
  | [] => None
  | (k', v) :: rest =>
      match dict_lookup k rest with
      | Some v' => Some v'
      | None => if String.eqb k k' then Some v else None
      end
  end.

(** [d.get(k, default)] *)
Definition dict_get {V : Type} (k : string) (d : list (string * V)) (default : V) : V :=
  match dict_lookup k d with
  | Some v => v
  | None => default
  end.

(** [sub in s] on strings. *)
Definition contains (sub s : string) : bool :=
  match String.index 0 sub s with
  | Some _ => true
  | None => false
  end.

(** * forex_data_processor.py *)

(** Values of [ForexDataProcessor.position_config]. *)
Record PositionConfig : Type := {
  base_lot : R;
  risk_factor : R
}.

(** Values of [currency_multipliers]. *)
Record Multipliers : Type := {
  stop : R;
  profit : R
}.

Inductive VolatilityClass : Type := Low | Medium | High.

(** The dictionary returned by [_calculate_position_parameters]. *)
Record PositionParameters : Type := {
  position_size : R;
  entry_price : R;
  entry_scale_1 : R;
  entry_scale_2 : R;
  stop_loss : R;
  take_profit : R;
  risk_reward : R;
  confidence : R;
  expected_return : R;
  risk_amount : R;
  volatility_class : VolatilityClass;
  position_adjustment : R;
  currency_adjustment : R
}.

(** [self.position_config], set in [__init__]. *)
Definition position_config : list (string * PositionConfig) := [
    ("EUR", {| base_lot := 100000; risk_factor := 1.0 |});
    ("GBP", {| base_lot := 80000; risk_factor := 1.2 |});
    ("USD", {| base_lot := 100000; risk_factor := 1.0 |});
    ("JPY", {| base_lot := 10000000; risk_factor := 0.8 |});
    ("CHF", {| base_lot := 100000; risk_factor := 0.9 |});
    ("AUD", {| base_lot := 100000; risk_factor := 1.3 |});
    ("NZD", {| base_lot := 100000; risk_factor := 1.4 |});
    ("CAD", {| base_lot := 100000; risk_factor := 1.1 |})
  ].

(** The default of [self.position_config.get(base_currency, ...)]. *)
Definition default_position_config : PositionConfig :=
  {| base_lot := 100000; risk_factor := 1.0 |}.

(** [currency_multipliers], local to [_calculate_dynamic_distances]; the
    literal lists ["UGX"] twice. *)
Definition currency_multipliers : list (string * Multipliers) := [
    ("JPY", {| stop := 1.4; profit := 2.2 |});
    ("EUR", {| stop := 1.2; profit := 2.5 |});
    ("GBP", {| stop := 1.3; profit := 2.3 |});
    ("USD", {| stop := 1.2; profit := 2.4 |});
    ("CHF", {| stop := 1.3; profit := 2.2 |});
    ("AUD", {| stop := 1.5; profit := 2.1 |});
    ("NZD", {| stop := 1.5; profit := 2.1 |});
    ("CAD", {| stop := 1.4; profit := 2.2 |});
    ("SGD", {| stop := 1.3; profit := 2.3 |});
    ("HKD", {| stop := 1.2; profit := 2.4 |});
    ("NOK", {| stop := 1.4; profit := 2.2 |});
    ("SEK", {| stop := 1.3; profit := 2.3 |});
    ("DKK", {| stop := 1.2; profit := 2.5 |});
    ("ZAR", {| stop := 1.5; profit := 2.0 |});
    ("MXN", {| stop := 1.6; profit := 1.9 |});
    ("TRY", {| stop := 1.7; profit := 1.8 |});
    ("RUB", {| stop := 1.8; profit := 1.7 |});
    ("INR", {| stop := 1.5; profit := 2.0 |});
    ("BRL", {| stop := 1.6; profit := 1.9 |});
    ("CNY", {| stop := 1.4; profit := 2.2 |});
    ("KRW", {| stop := 1.3; profit := 2.3 |});
    ("TWD", {| stop := 1.2; profit := 2.4 |});
    ("MYR", {| stop := 1.5; profit := 2.1 |});
    ("IDR", {| stop := 1.6; profit := 1.9 |});
    ("THB", {| stop := 1.4; profit := 2.2 |});
    ("PHP", {| stop := 1.5; profit := 2.0 |});
    ("PLN", {| stop := 1.3; profit := 2.3 |});
    ("HUF", {| stop := 1.4; profit := 2.2 |});
    ("CZK", {| stop := 1.3; profit := 2.3 |});
    ("ILS", {| stop := 1.2; profit := 2.4 |});
    ("SAR", {| stop := 1.5; profit := 2.1 |});
    ("AED", {| stop := 1.4; profit := 2.2 |});
    ("QAR", {| stop := 1.3; profit := 2.3 |});
    ("KWD", {| stop := 1.2; profit := 2.4 |});
    ("BHD", {| stop := 1.3; profit := 2.3 |});
    ("OMR", {| stop := 1.2; profit := 2.4 |});
    ("JOD", {| stop := 1.3; profit := 2.3 |});
    ("EGP", {| stop := 1.5; profit := 2.0 |});
    ("NGN", {| stop := 1.6; profit := 1.9 |});
    ("KES", {| stop := 1.5; profit := 2.0 |});
    ("GHS", {| stop := 1.6; profit := 1.9 |});
    ("TZS", {| stop := 1.5; profit := 2.0 |});
    ("UGX", {| stop := 1.6; profit := 1.9 |});
    ("ZMW", {| stop := 1.7; profit := 1.8 |});
    ("MAD", {| stop := 1.5; profit := 2.0 |});
    ("DZD", {| stop := 1.6; profit := 1.9 |});
    ("TND", {| stop := 1.5; profit := 2.0 |});
    ("LBP", {| stop := 1.7; profit := 1.8 |});
    ("JMD", {| stop := 1.6; profit := 1.9 |});
    ("TTD", {| stop := 1.5; profit := 2.0 |});
    ("BBD", {| stop := 1.6; profit := 1.9 |});
    ("BZD", {| stop := 1.5; profit := 2.0 |});
    ("BMD", {| stop := 1.4; profit := 2.2 |});
    ("BSD", {| stop := 1.4; profit := 2.2 |});
    ("KYD", {| stop := 1.3; profit := 2.3 |});
    ("XCD", {| stop := 1.4; profit := 2.2 |});
    ("ANG", {| stop := 1.3; profit := 2.3 |});
    ("AWG", {| stop := 1.3; profit := 2.3 |});
    ("BIF", {| stop := 1.6; profit := 1.9 |});
    ("CDF", {| stop := 1.7; profit := 1.8 |});
    ("DJF", {| stop := 1.5; profit := 2.0 |});
    ("ERN", {| stop := 1.6; profit := 1.9 |});
    ("ETB", {| stop := 1.7; profit := 1.8 |});
    ("GMD", {| stop := 1.6; profit := 1.9 |});
    ("GNF", {| stop := 1.7; profit := 1.8 |});
    ("LSL", {| stop := 1.6; profit := 1.9 |});
    ("LRD", {| stop := 1.7; profit := 1.8 |});
    ("MWK", {| stop := 1.6; profit := 1.9 |});
    ("MRO", {| stop := 1.7; profit := 1.8 |});
    ("MUR", {| stop := 1.6; profit := 1.9 |});
    ("MZN", {| stop := 1.7; profit := 1.8 |});
    ("NAD", {| stop := 1.6; profit := 1.9 |});
    ("RWF", {| stop := 1.7; profit := 1.8 |});
    ("SCR", {| stop := 1.6; profit := 1.9 |});
    ("SLL", {| stop := 1.7; profit := 1.8 |});
    ("SOS", {| stop := 1.6; profit := 1.9 |});
    ("SSP", {| stop := 1.7; profit := 1.8 |});
    ("SDG", {| stop := 1.6; profit := 1.9 |});
    ("SZL", {| stop := 1.6; profit := 1.9 |});
    ("TJS", {| stop := 1.7; profit := 1.8 |});
    ("TMT", {| stop := 1.6; profit := 1.9 |});
    ("UGX", {| stop := 1.6; profit := 1.9 |});
    ("UZS", {| stop := 1.7; profit := 1.8 |});
    ("VND", {| stop := 1.6; profit := 1.9 |});
    ("XAF", {| stop := 1.6; profit := 1.9 |});
    ("XOF", {| stop := 1.6; profit := 1.9 |});
    ("XPF", {| stop := 1.6; profit := 1.9 |});
    ("YER", {| stop := 1.7; profit := 1.8 |});
    ("ZWL", {| stop := 1.7; profit := 1.8 |})
  ].

Definition default_multipliers : Multipliers := {| stop := 1.3; profit := 2.3 |}.

Definition _calculate_dynamic_distances
    (volatility atr daily_range : R) (base_currency : string) : R * R :=
  let mult := dict_get base_currency currency_multipliers default_multipliers in
  let '(stop_distance, profit_mult) :=
    if volatility <? 0.005 then
      (Rmax (atr * stop mult) (daily_range * 0.1), profit mult * 1.1)
    else if volatility <? 0.01 then
      (Rmax (atr * stop mult * 1.2) (daily_range * 0.15), profit mult)
    else
      (Rmax (atr * stop mult * 1.4) (daily_range * 0.2), profit mult * 0.9) in
  let profit_distance := stop_distance * profit_mult in
  (stop_distance, profit_distance).

(** [currency_volatility], local to [_calculate_position_parameters]. *)
Definition currency_volatility : list (string * R) := [
    ("JPY", 1.2);
    ("CHF", 0.9);
    ("EUR", 1.0);
    ("GBP", 0.95);
    ("USD", 1.0);
    ("AUD", 0.85);
    ("NZD", 0.85);
    ("CAD", 0.9)
  ].

Definition _calculate_position_parameters
    (base_currency : string) (current_price volatility : R)
    : result PositionParameters :=
  let config := dict_get base_currency position_config default_position_config in
  let base_lot := base_lot config in
  let risk_factor := risk_factor config in
  let atr := volatility * current_price in
  let daily_range := atr * sqrt 252 in
  let volatility_adjustment := 1.0 in
  let volatility_adjustment :=
    if volatility >? 0.015 then 0.7
    else if volatility >? 0.008 then 0.85
    else if volatility <? 0.004 then 1.2
    else volatility_adjustment in
  let currency_adj := dict_get base_currency currency_volatility 1.0 in
  let adjusted_position := base_lot * volatility_adjustment * currency_adj in
  let '(stop_distance, profit_distance) :=
    if volatility <? 0.005 then
      let stop_distance := Rmax (atr * 1.2) (daily_range * 0.1) in
      (stop_distance, stop_distance * 2.8)
    else if volatility <? 0.01 then
      let stop_distance := Rmax (atr * 1.5) (daily_range * 0.15) in
      (stop_distance, stop_distance * 2.3)
    else
      let stop_distance := Rmax (atr * 2.0) (daily_range * 0.2) in
      (stop_distance, stop_distance * 1.8) in
  let min_pip_value := if negb (contains "JPY" base_currency) then 0.0001 else 0.01 in
  let '(stop_distance, profit_distance) :=
    _calculate_dynamic_distances volatility atr daily_range base_currency in
  let entry_main := current_price in
  let entry_scale_1 := current_price * 0.9995 in
  let entry_scale_2 := current_price * 0.9990 in
  let risk_amount := stop_distance * adjusted_position in
  let potential_return := profit_distance * adjusted_position in
  risk_reward_ratio <- pydiv profit_distance stop_distance ;;
  let expected_value := (risk_reward_ratio * 0.45 - 0.55) * risk_amount in
  inv_volatility <- pydiv 1 volatility ;;
  size_ratio <- pydiv adjusted_position base_lot ;;
  let confidence_score :=
    Rmin (risk_reward_ratio * 20 + inv_volatility * 30 + size_ratio * 25 + 25) 100 in
  Ok {| position_size := adjusted_position;
        entry_price := entry_main;
        entry_scale_1 := entry_scale_1;
        entry_scale_2 := entry_scale_2;
        stop_loss := entry_main - stop_distance;
        take_profit := entry_main + profit_distance;
        risk_reward := risk_reward_ratio;
        confidence := confidence_score;
        expected_return := expected_value;
        risk_amount := risk_amount;
        volatility_class :=
          if volatility <? 0.005 then Low
          else if volatility <? 0.01 then Medium
          else High;
        position_adjustment := volatility_adjustment;
        currency_adjustment := currency_adj |}.

(** The same function with the first computation of [stop_distance] and
    [profit_distance] (the [if volatility < 0.005: ...] block with the
    fixed factors) deleted: the distances are assigned once, from
    [_calculate_dynamic_distances]. *)
Definition _calculate_position_parameters_without_regime_block
    (base_currency : string) (current_price volatility : R)
    : result PositionParameters :=
  let config := dict_get base_currency position_config default_position_config in
  let base_lot := base_lot config in
  let risk_factor := risk_factor config in
  let atr := volatility * current_price in
  let daily_range := atr * sqrt 252 in
  let volatility_adjustment := 1.0 in
  let volatility_adjustment :=
    if volatility >? 0.015 then 0.7
    else if volatility >? 0.008 then 0.85
    else if volatility <? 0.004 then 1.2
    else volatility_adjustment in
  let currency_adj := dict_get base_currency currency_volatility 1.0 in
  let adjusted_position := base_lot * volatility_adjustment * currency_adj in
  let min_pip_value := if negb (contains "JPY" base_currency) then 0.0001 else 0.01 in
  let '(stop_distance, profit_distance) :=
    _calculate_dynamic_distances volatility atr daily_range base_currency in
  let entry_main := current_price in
  let entry_scale_1 := current_price * 0.9995 in
  let entry_scale_2 := current_price * 0.9990 in
  let risk_amount := stop_distance * adjusted_position in
  let potential_return := profit_distance * adjusted_position in
  risk_reward_ratio <- pydiv profit_distance stop_distance ;;
  let expected_value := (risk_reward_ratio * 0.45 - 0.55) * risk_amount in
  inv_volatility <- pydiv 1 volatility ;;
  size_ratio <- pydiv adjusted_position base_lot ;;
  let confidence_score :=
    Rmin (risk_reward_ratio * 20 + inv_volatility * 30 + size_ratio * 25 + 25) 100 in
  Ok {| position_size := adjusted_position;
        entry_price := entry_main;
        entry_scale_1 := entry_scale_1;
        entry_scale_2 := entry_scale_2;
        stop_loss := entry_main - stop_distance;
        take_profit := entry_main + profit_distance;
        risk_reward := risk_reward_ratio;
        confidence := confidence_score;
        expected_return := expected_value;
        risk_amount := risk_amount;
        volatility_class :=
          if volatility <? 0.005 then Low
          else if volatility <? 0.01 then Medium
          else High;
        position_adjustment := volatility_adjustment;
        currency_adjustment := currency_adj |}.

(** ** Market data *)

Inductive Trend : Type := Bullish | Bearish.
Inductive MacdSignal : Type := Buy | Sell.

(** The dictionary returned by [YahooCurrencyWrapper.get_summary]. *)
Module Summary.
Record t : Type := {
  current_rate : R;
  day_change_pct : R;
  rsi : R;
  trend : Trend;
  macd_signal : MacdSignal;
  volatility : R;
  support : R;
  resistance : R;
  volume : R
}.
End Summary.

(** A row of the frame built by [load_market_data]; the [timestamp]
    column ([datetime.now()]) is left out. *)
Module MarketRow.
Record t : Type := {
  pair : string;
  base_currency : string;
  quote_currency : string;
  current_rate : R;
  day_change : R;
  trend : Trend;
  rsi : R;
  volatility : R;
  macd_signal : MacdSignal;
  position_size : R;
  entry_price : R;
  take_profit : R;
  stop_loss : R;
  risk_reward : R;
  expected_return : R;
  signal_strength : R
}.
End MarketRow.

(** The collaborator [self.currency]: the pair universe and the summary
    of each pair, which is fetched from the network in the source. *)
Record CurrencyWrapper : Type := {
  get_available_pairs : list string;
  get_summary : string -> result Summary.t
}.

(** A [DataFrame] built from a list of row dictionaries is the list of its
    rows; built from no row it has no column either. *)
Record ForexDataProcessor : Type := {
  currency : CurrencyWrapper;
  market_data : list MarketRow.t
}.

(** [ForexDataProcessor.__init__] *)
Definition ForexDataProcessor_init (currency_wrapper : CurrencyWrapper) : ForexDataProcessor :=
  {| currency := currency_wrapper; market_data := [] |}.

(** [s.split(sep)] for a one-character separator. *)
Fixpoint split (sep : ascii) (s : string) : list string :=
  match s with
  | EmptyString => [EmptyString]
  | String c rest =>
      if Ascii.eqb c sep then EmptyString :: split sep rest
      else match split sep rest with
           | [] => [String c EmptyString]
           | word :: words => String c word :: words
           end
  end.

(** The second definition of [_calculate_signal_strength], which is the
    one bound to the name (it repeats the first). *)
Definition _calculate_signal_strength
    (summary : Summary.t) (pos_params : PositionParameters) : R :=
  let score := 0 in
  let score :=
    match Summary.trend summary, Summary.macd_signal summary with
    | Bullish, Buy => score + 30
    | Bearish, Sell => score + 30
    | _, _ => score
    end in
  let score :=
    match Summary.trend summary with
    | Bullish =>
        if Summary.rsi summary <? 30 then score + 25
        else if Summary.rsi summary <? 45 then score + 15
        else score
    | Bearish =>
        if Summary.rsi summary >? 70 then score + 25
        else if Summary.rsi summary >? 55 then score + 15
        else score
    end in
  let rr_score := Rmin (risk_reward pos_params * 10) 25 in
  let score := score + rr_score in
  let vol_score := (1 - Summary.volatility summary / 0.02) * 20 in
  let score := score + Rmax (Rmin vol_score 20) 0 in
  score.

(** The body of the [try] block of [load_market_data] for one pair.  A
    summary is a non-empty dictionary, so [if summary:] always holds.
    At a rate or a volatility of zero the sizer follows Python floats
    here as everywhere (the pair is dropped); on numpy scalars the source
    appends a row of [nan] columns instead.  The statements about loaded
    frames assume summaries with a positive rate and volatility, where
    the two agree. *)
Definition market_row (currency : CurrencyWrapper) (pair : string) : result MarketRow.t :=
  summary <- get_summary currency pair ;;
  match split "/" pair with
  | [base; quote] =>
      pos_params <- _calculate_position_parameters
                      base (Summary.current_rate summary) (Summary.volatility summary) ;;
      let signal_strength := _calculate_signal_strength summary pos_params in
      Ok {| MarketRow.pair := pair;
            MarketRow.base_currency := base;
            MarketRow.quote_currency := quote;
            MarketRow.current_rate := Summary.current_rate summary;
            MarketRow.day_change := Summary.day_change_pct summary;
            MarketRow.trend := Summary.trend summary;
            MarketRow.rsi := Summary.rsi summary;
            MarketRow.volatility := Summary.volatility summary;
            MarketRow.macd_signal := Summary.macd_signal summary;
            MarketRow.position_size := position_size pos_params;
            MarketRow.entry_price := entry_price pos_params;
            MarketRow.take_profit := take_profit pos_params;
            MarketRow.stop_loss := stop_loss pos_params;
            MarketRow.risk_reward := risk_reward pos_params;
            MarketRow.expected_return := expected_return pos_params;
            MarketRow.signal_strength := signal_strength |}
  | _ => Raise ValueError
  end.

(** [load_market_data]: a pair whose processing raises is reported and
    skipped.  The frame is returned; [self] is not changed. *)
Definition load_market_data (self : ForexDataProcessor) : list MarketRow.t :=
  flat_map (fun pair =>
              match market_row (currency self) pair with
              | Ok row => [row]
              | Raise _ => []
              end)
           (get_available_pairs (currency self)).

(** ** Sorting a frame

    [df.sort_values(column, ascending=False)].  pandas leaves the sorting
    algorithm at its default and promises a sorted rearrangement of the
    rows; an insertion sort stands for it here.  The theorems on sorted
    frames use only that the result is a sorted rearrangement. *)

Section SortValues.
Context {A : Type} (column : A -> R).

Fixpoint insert_descending (x : A) (rows : list A) : list A :=
  match rows with
  | [] => [x]
  | y :: rest =>
      if column x >=? column y then x :: y :: rest
      else y :: insert_descending x rest
  end.

Definition sort_values_descending (rows : list A) : list A :=
  fold_right insert_descending [] rows.
End SortValues.

(** [get_top_opportunities].  The frame returned by [load_market_data] is
    dropped: [self.market_data] is read afterwards as it was.  Indexing a
    frame without columns by ['risk_reward'] raises [KeyError]. *)
Definition get_top_opportunities
    (self : ForexDataProcessor) (min_risk_reward : R) : result (list MarketRow.t) :=
  let _ := match market_data self with
           | [] => load_market_data self
           | _ :: _ => []
           end in
  match market_data self with
  | [] => Raise KeyError
  | _ :: _ =>
      let opportunities :=
        sort_values_descending MarketRow.signal_strength
          (filter (fun row => MarketRow.risk_reward row >=? min_risk_reward)
                  (market_data self)) in
      Ok opportunities
  end.

(** * dashboard.py *)

(** [self.trading_config] *)
Record TradingConfig : Type := {
  min_risk_reward : R;
  min_confidence : R;
  max_volatility : R;
  rsi_oversold : R;
  rsi_overbought : R
}.

(** The configuration set by [MarketOpportunityDashboard.__init__]. *)
Definition trading_config_init : TradingConfig :=
  {| min_risk_reward := 1.5;
     min_confidence := 60;
     max_volatility := 0.02;
     rsi_oversold := 30;
     rsi_overbought := 70 |}.

Definition _calculate_opportunity_score
    (trading_config : TradingConfig) (row : MarketRow.t) (trade_params : PositionParameters)
    : result R :=
  let score := 0 in
  let score :=
    match MarketRow.trend row with
    | Bullish => if expected_return trade_params >? 0 then score + 30 else score
    | Bearish => if expected_return trade_params <? 0 then score + 30 else score
    end in
  let score :=
    match MarketRow.trend row with
    | Bullish => if MarketRow.rsi row <? rsi_oversold trading_config then score + 20 else score
    | Bearish => if MarketRow.rsi row >? rsi_overbought trading_config then score + 20 else score
    end in
  let rr_score := Rmin (risk_reward trade_params * 10) 25 in
  let score := score + rr_score in
  vol_ratio <- pydiv (MarketRow.volatility row) (max_volatility trading_config) ;;
  let vol_score := (1 - vol_ratio) * 15 in
  let score := score + Rmax vol_score 0 in
  let momentum_score := Rabs (MarketRow.day_change row) * 2 in
  let score := score + Rmin momentum_score 10 in
  Ok (Rmin score 100).

(** An entry of [opportunities]: [{**row.to_dict(), **trade_params,
    'opportunity_score': score}].  Keys present in both dictionaries take
    the value of [trade_params]. *)
Record Opportunity : Type := {
  opportunity_row : MarketRow.t;
  opportunity_params : PositionParameters;
  opportunity_score : R
}.

(** The body of the loop of [analyze_opportunities] for one row. *)
Definition analyze_row (trading_config : TradingConfig) (row : MarketRow.t) : result Opportunity :=
  trade_params <- _calculate_position_parameters
                    (MarketRow.base_currency row) (MarketRow.current_rate row) (MarketRow.volatility row) ;;
  score <- _calculate_opportunity_score trading_config row trade_params ;;
  Ok {| opportunity_row := row;
        opportunity_params := trade_params;
        opportunity_score := score |}.

Fixpoint analyze_rows (trading_config : TradingConfig) (rows : list MarketRow.t)
    : result (list Opportunity) :=
  match rows with
  | [] => Ok []
  | row :: rest =>
      opportunity <- analyze_row trading_config row ;;
      opportunities <- analyze_rows trading_config rest ;;
      Ok (opportunity :: opportunities)
  end.

(** [analyze_opportunities]: the new value of [self.opportunity_cache],
    given [self.market_data] and the cache so far. *)
Definition analyze_opportunities
    (trading_config : TradingConfig) (market_data : list MarketRow.t)
    (opportunity_cache : list Opportunity) : result (list Opportunity) :=
  match market_data with
  | [] => Ok opportunity_cache
  | _ :: _ =>
      opportunities <- analyze_rows trading_config market_data ;;
      Ok (sort_values_descending opportunity_score opportunities)
  end.

(** * yahoo_currency_wrapper.py: the RSI of [get_summary]

    The entries of a pandas [Series] of floats are real numbers, the two
    infinities or [NaN].  The sign of a zero is not kept: a zero divisor
    counts as positive. *)

Inductive npfloat : Type :=
| Fin (x : R)
| PInf
| NInf
| NaN.

Definition fneg (a : npfloat) : npfloat :=
  match a with
  | Fin x => Fin (- x)
  | PInf => NInf
  | NInf => PInf
  | NaN => NaN
  end.

Definition fadd (a b : npfloat) : npfloat :=
  match a, b with
  | NaN, _ | _, NaN => NaN
  | PInf, NInf | NInf, PInf => NaN
  | PInf, _ | _, PInf => PInf
  | NInf, _ | _, NInf => NInf
  | Fin x, Fin y => Fin (x + y)
  end.

Definition fsub (a b : npfloat) : npfloat := fadd a (fneg b).

Definition fdiv (a b : npfloat) : npfloat :=
  match a, b with
  | NaN, _ | _, NaN => NaN
  | Fin x, Fin y =>
      if Req_dec_T y 0 then
        if 0 <? x then PInf else if x <? 0 then NInf else NaN
      else Fin (x / y)
  | Fin _, (PInf | NInf) => Fin 0
  | PInf, Fin y => if y <? 0 then NInf else PInf
  | NInf, Fin y => if y <? 0 then PInf else NInf
  | (PInf | NInf), (PInf | NInf) => NaN
  end.

(** [a > 0] and [a < 0]; a comparison with [NaN] is false. *)
Definition fgt0 (a : npfloat) : bool :=
  match a with
  | Fin x => x >? 0
  | PInf => true
  | NInf | NaN => false
  end.

Definition flt0 (a : npfloat) : bool :=
  match a with
  | Fin x => x <? 0
  | NInf => true
  | PInf | NaN => false
  end.

Definition isnan (a : npfloat) : bool :=
  match a with
  | NaN => true
  | _ => false
  end.

(** [Series.diff()] on a column of finite values: the first entry is
    [NaN]. *)
Fixpoint differences (previous : R) (values : list R) : list npfloat :=
  match values with
  | [] => []
  | x :: rest => Fin (x - previous) :: differences x rest
  end.

Definition diff (close : list R) : list npfloat :=
  match close with
  | [] => []
  | x :: rest => NaN :: differences x rest
  end.

(** [s.where(cond, other)], for a condition computed entry by entry from
    [s] itself. *)
Definition where_ (cond : npfloat -> bool) (other : npfloat) (s : list npfloat)
    : list npfloat :=
  map (fun a => if cond a then a else other) s.

Definition fsum (s : list npfloat) : npfloat := fold_right fadd (Fin 0) s.

(** The mean of the last [window] entries of [s]; [NaN] when [s] has
    fewer entries, or a [NaN] among them. *)
Definition window_mean (window : nat) (s : list npfloat) : npfloat :=
  if (length s <? window)%nat then NaN
  else fdiv (fsum (skipn (length s - window) s)) (Fin (INR window)).

(** [s.rolling(window=window).mean()]: entry [i] is the mean of the
    window that ends at [i]. *)
Definition rolling_mean (window : nat) (s : list npfloat) : list npfloat :=
  map (fun i => window_mean window (firstn (S i) s)) (seq 0 (length s)).

(** Entry-wise operation on two series with the same index. *)
Fixpoint map2 {A B C : Type} (f : A -> B -> C) (s1 : list A) (s2 : list B) : list C :=
  match s1, s2 with
  | a :: r1, b :: r2 => f a b :: map2 f r1 r2
  | _, _ => []
  end.

Definition fillna (value : npfloat) (s : list npfloat) : list npfloat :=
  map (fun a => if isnan a then value else a) s.

(** [s.iloc[-1]] *)
Definition iloc_last {A : Type} (s : list A) : result A :=
  match rev s with
  | [] => Raise IndexError
  | a :: _ => Ok a
  end.

(** [gain] and [loss] of [get_summary]. *)
Definition gain (close : list R) : list npfloat :=
  let delta := diff close in
  rolling_mean 14 (where_ fgt0 (Fin 0) delta).

Definition loss (close : list R) : list npfloat :=
  let delta := diff close in
  rolling_mean 14 (map fneg (where_ flt0 (Fin 0) delta)).

(** [rsi] of [get_summary]: [100 - (100 / (1 + rs)).fillna(50)]. *)
Definition rsi (close : list R) : list npfloat :=
  let rs := map2 fdiv (gain close) (loss close) in
  map (fsub (Fin 100)) (fillna (Fin 50) (map (fdiv (Fin 100)) (map (fadd (Fin 1)) rs))).

(** The [try] block of [get_summary] as far as the ['rsi'] entry of the
    summary goes, from the [Close] column of the fetched frame. *)
Definition rsi_value (close : list R) : result npfloat :=
  match close with
  | [] => Raise Exception
  | _ :: _ =>
      last_rsi <- iloc_last (rsi close) ;;
      Ok (if isnan last_rsi then Fin 50.0 else last_rsi)
  end.

(** [get_summary] raises every exception of its [try] block again as an
    [Exception]. *)
Definition summary_rsi (close : list R) : result npfloat :=
  match rsi_value close with
  | Ok value => Ok value
  | Raise _ => Raise Exception
  end.

(** * Further operations of the sources *)

(** ** forex_data_processor.py, the [__main__] block

    [processor = ForexDataProcessor(...)], [data =
    processor.load_market_data()], [opportunities =
    processor.get_top_opportunities()], with the currency wrapper as a
    parameter. *)
Definition processor_main (currency_wrapper : CurrencyWrapper) : result (list MarketRow.t) :=
  let processor := ForexDataProcessor_init currency_wrapper in
  let data := load_market_data processor in
  let opportunities := get_top_opportunities processor 1.5 in
  opportunities.

(** ** dashboard.py, the state of the dashboard *)

Record MarketOpportunityDashboard : Type := {
  processor : ForexDataProcessor;
  dashboard_market_data : list MarketRow.t;
  opportunity_cache : list Opportunity;
  trading_config : TradingConfig
}.

(** [MarketOpportunityDashboard.__init__] with [initialize_dashboard]:
    the market data are loaded, then analysed into the cache. *)
Definition MarketOpportunityDashboard_init (currency_wrapper : CurrencyWrapper)
    : result MarketOpportunityDashboard :=
  let processor := ForexDataProcessor_init currency_wrapper in
  let market_data := load_market_data processor in
  cache <- analyze_opportunities trading_config_init market_data [] ;;
  Ok {| processor := processor;
        dashboard_market_data := market_data;
        opportunity_cache := cache;
        trading_config := trading_config_init |}.

(** [x <= y] on numbers. *)
Definition leb (x y : R) : bool := y >=? x.
Infix "<=?" := leb (at level 70) : R_scope.

(** The counts of [_generate_market_stats]:
    [len(df[df['opportunity_score'] >= 70])] and
    [len(df[df['opportunity_score'].between(50, 70)])]; [between]
    includes both ends. *)
Definition strong_opps (df : list Opportunity) : nat :=
  length (filter (fun o => opportunity_score o >=? 70) df).

Definition moderate_opps (df : list Opportunity) : nat :=
  length (filter (fun o => (50 <=? opportunity_score o) && (opportunity_score o <=? 70)) df).

(** The style of the score cell in [_add_market_row]. *)
Inductive Style : Type := green | yellow | red.

Definition score_style (opportunity_score : R) : Style :=
  if opportunity_score >=? 70 then green
  else if opportunity_score >=? 50 then yellow
  else red.

(** ** yahoo_currency_wrapper.py, symbols *)

(** [s.endswith(suffix)] *)
Fixpoint endswith (suffix s : string) : bool :=
  String.eqb s suffix
  || match s with
     | EmptyString => false
     | String _ rest => endswith suffix rest
     end.

(** [s.startswith(prefix)] *)
Definition startswith (prefix s : string) : bool := String.prefix prefix s.

(** [s.replace(c, '')] for a one-character [c]. *)
Fixpoint remove_char (c : ascii) (s : string) : string :=
  match s with
  | EmptyString => EmptyString
  | String a rest =>
      if Ascii.eqb a c then remove_char c rest else String a (remove_char c rest)
  end.

Definition format_symbol (symbol : string) : string :=
  if endswith "=X" symbol then symbol
  else if contains "/" symbol then String.append (remove_char "/" symbol) "=X"
  else String.append symbol "=X".

(** ** yahoo_currency_wrapper.py, the other indicators of [get_summary] *)

Definition fmul (a b : npfloat) : npfloat :=
  match a, b with
  | NaN, _ | _, NaN => NaN
  | Fin x, Fin y => Fin (x * y)
  | Fin x, PInf | PInf, Fin x =>
      if 0 <? x then PInf else if x <? 0 then NInf else NaN
  | Fin x, NInf | NInf, Fin x =>
      if 0 <? x then NInf else if x <? 0 then PInf else NaN
  | PInf, PInf | NInf, NInf => PInf
  | PInf, NInf | NInf, PInf => NInf
  end.

Definition fsqrt (a : npfloat) : npfloat :=
  match a with
  | Fin x => if x <? 0 then NaN else Fin (sqrt x)
  | PInf => PInf
  | NInf | NaN => NaN
  end.

(** [a > b]; a comparison with [NaN] is false. *)
Definition fgt (a b : npfloat) : bool :=
  match a, b with
  | NaN, _ | _, NaN => false
  | Fin x, Fin y => x >? y
  | PInf, PInf => false
  | PInf, _ => true
  | _, PInf => false
  | NInf, _ => false
  | Fin _, NInf => true
  end.

(** [current_price], [prev_price] and [day_change] of [get_summary]. *)
Definition summary_day_change (close : list R) : result npfloat :=
  match close with
  | [] => Raise Exception
  | _ :: _ =>
      match iloc_last close with
      | Raise _ => Raise Exception
      | Ok current_price =>
          let prev_price :=
            if (1 <? length close)%nat then nth (length close - 2) close current_price
            else current_price in
          Ok (fmul (fsub (fdiv (Fin current_price) (Fin prev_price)) (Fin 1)) (Fin 100))
      end
  end.

(** The ['trend'] entry: the last 20-bar mean against the last 50-bar
    mean of the closes. *)
Definition summary_trend (close : list R) : result Trend :=
  match close with
  | [] => Raise Exception
  | _ :: _ =>
      let sma_20 := rolling_mean 20 (map Fin close) in
      let sma_50 := rolling_mean 50 (map Fin close) in
      match iloc_last sma_20, iloc_last sma_50 with
      | Ok last_20, Ok last_50 => Ok (if fgt last_20 last_50 then Bullish else Bearish)
      | _, _ => Raise Exception
      end
  end.

(** [Series.pct_change()]: the first entry is [NaN]. *)
Fixpoint relative_changes (previous : R) (values : list R) : list npfloat :=
  match values with
  | [] => []
  | x :: rest => fsub (fdiv (Fin x) (Fin previous)) (Fin 1) :: relative_changes x rest
  end.

Definition pct_change (close : list R) : list npfloat :=
  match close with
  | [] => []
  | x :: rest => NaN :: relative_changes x rest
  end.

Definition dropna (s : list npfloat) : list npfloat :=
  filter (fun a => negb (isnan a)) s.

(** [Series.std()] of a series without [NaN]: the sample standard
    deviation (one degree of freedom taken off), [NaN] for fewer than two
    entries. *)
Definition std (s : list npfloat) : npfloat :=
  let count := length s in
  if (count <=? 1)%nat then NaN
  else
    let avg := fdiv (fsum s) (Fin (INR count)) in
    let sqr := map (fun a => fmul (fsub avg a) (fsub avg a)) s in
    fsqrt (fdiv (fsum sqr) (Fin (INR (count - 1)))).

(** The ['volatility'] entry. *)
Definition summary_volatility (close : list R) : result npfloat :=
  match close with
  | [] => Raise Exception
  | _ :: _ =>
      let returns := dropna (pct_change close) in
      let volatility :=
        if (0 <? length returns)%nat then fmul (std returns) (Fin (sqrt 252))
        else Fin 0.0 in
      Ok (if isnan volatility then Fin 0.0 else volatility)
  end.

(** [Series.ewm(span=span, adjust=False).mean()] on finite values: the
    first entry is the first value, every later one is the previous
    entry times [1 - alpha] plus the value times [alpha], with [alpha = 2
    / (span + 1)]. *)
Fixpoint ewm_from (alpha previous : R) (values : list R) : list R :=
  match values with
  | [] => []
  | x :: rest =>
      let y := (1 - alpha) * previous + alpha * x in
      y :: ewm_from alpha y rest
  end.

Definition ewm_mean (span : R) (values : list R) : list R :=
  match values with
  | [] => []
  | x :: rest => x :: ewm_from (2 / (span + 1)) x rest
  end.

(** The ['macd_signal'] entry.  On finite closes the MACD and its signal
    line are finite, so the [NaN] defaults are not taken. *)
Definition summary_macd_signal (close : list R) : result MacdSignal :=
  match close with
  | [] => Raise Exception
  | _ :: _ =>
      let exp1 := ewm_mean 12 close in
      let exp2 := ewm_mean 26 close in
      let macd := map2 Rminus exp1 exp2 in
      let signal_line := ewm_mean 9 macd in
      match iloc_last macd, iloc_last signal_line with
      | Ok macd_last, Ok signal_last =>
          Ok (if macd_last >? signal_last then Buy else Sell)
      | _, _ => Raise Exception
      end
  end.

(** ** yahoo_currency_wrapper.py, rates and pip values *)

(** The market-data service behind [fetch_currency_rate]: for a ticker
    symbol, the [Close] column of the returned frame, or an exception. *)
Definition TickerHistory : Type := string -> result (list R).

(** [fetch_currency_rate(symbol, period=...)], as far as the closes go:
    every exception is raised again as an [Exception]. *)
Definition fetch_currency_rate (history : TickerHistory) (symbol : string)
    : result (list R) :=
  let formatted_symbol := format_symbol symbol in
  match history formatted_symbol with
  | Ok df => Ok df
  | Raise _ => Raise Exception
  end.

(** [get_current_rate]: the last close, or [None] for an empty frame. *)
Definition get_current_rate (history : TickerHistory) (symbol : string)
    : result (option R) :=
  df <- fetch_currency_rate history symbol ;;
  match rev df with
  | [] => Ok None
  | close :: _ => Ok (Some close)
  end.

(** [calculate_pip_value].  A rate that is [None] makes the arithmetic
    raise [TypeError], a [symbol] without ["/"] makes [split('/')[1]]
    raise [IndexError]; both are raised again as an [Exception]. *)
Definition calculate_pip_value (history : TickerHistory) (symbol : string) (amount : R)
    : result npfloat :=
  match get_current_rate history symbol with
  | Raise _ => Raise Exception
  | Ok rate =>
      let pip_size := if contains "JPY" symbol then 0.01 else 0.0001 in
      let pip_value := pip_size * amount in
      if startswith "USD" symbol then
        match rate with
        | Some r => Ok (fdiv (Fin pip_value) (Fin r))
        | None => Raise Exception
        end
      else if endswith "USD" symbol then Ok (Fin pip_value)
      else
        match split "/" symbol with
        | _ :: quote :: _ =>
            match get_current_rate history (String.append quote "/USD") with
            | Ok (Some usd_rate) => Ok (fmul (Fin pip_value) (Fin usd_rate))
            | Ok None => Raise Exception
            | Raise _ => Raise Exception
            end
        | _ => Raise Exception
        end
  end.

(** * Auxiliary definitions for the proofs *)

(** ** Pieces of the position sizer *)

(** The position-size multiplier chosen from the volatility (the
    [if]/[elif] chain on [volatility_adjustment]). *)
Definition volatility_adjustment_of (volatility : R) : R :=
  if volatility >? 0.015 then 0.7
  else if volatility >? 0.008 then 0.85
  else if volatility <? 0.004 then 1.2
  else 1.0.

Definition volatility_class_of (volatility : R) : VolatilityClass :=
  if volatility <? 0.005 then Low else if volatility <? 0.01 then Medium else High.

(** The profit factor applied to the stop distance, per volatility band. *)
Definition profit_mult_of (volatility : R) (base_currency : string) : R :=
  let mult := dict_get base_currency currency_multipliers default_multipliers in
  if volatility <? 0.005 then profit mult * 1.1
  else if volatility <? 0.01 then profit mult
  else profit mult * 0.9.


(** ** What the position sizer returns *)

(** The record built when no division fails. *)
Definition position_record
    (base_currency : string) (current_price volatility : R) : PositionParameters :=
  let base_lot := base_lot (dict_get base_currency position_config default_position_config) in
  let atr := volatility * current_price in
  let currency_adj := dict_get base_currency currency_volatility 1.0 in
  let adjusted_position := base_lot * volatility_adjustment_of volatility * currency_adj in
  let d := _calculate_dynamic_distances volatility atr (atr * sqrt 252) base_currency in
  let risk_reward_ratio := snd d / fst d in
  {| position_size := adjusted_position;
     entry_price := current_price;
     entry_scale_1 := current_price * 0.9995;
     entry_scale_2 := current_price * 0.9990;
     stop_loss := current_price - fst d;
     take_profit := current_price + snd d;
     risk_reward := risk_reward_ratio;
     confidence :=
       Rmin (risk_reward_ratio * 20 + 1 / volatility * 30
             + adjusted_position / base_lot * 25 + 25) 100;
     expected_return := (risk_reward_ratio * 0.45 - 0.55) * (fst d * adjusted_position);
     risk_amount := fst d * adjusted_position;
     volatility_class := volatility_class_of volatility;
     position_adjustment := volatility_adjustment_of volatility;
     currency_adjustment := currency_adj |}.


(** ** The codes of the risk-profile table *)

Definition major_currencies : list string :=
  ["EUR"; "GBP"; "USD"; "JPY"; "CHF"; "AUD"; "NZD"; "CAD"].

(** [config['risk_factor']] after the lookup with default. *)
Definition risk_factor_of (code : string) : R :=
  risk_factor (dict_get code position_config default_position_config).

(** ** Sample inputs *)

(** A row and trade parameters with a bullish trend, a positive expected
    return, RSI 25, risk/reward 2.5, volatility 0.003 and a day change of
    1.0 percent. *)
Definition sample_row : MarketRow.t :=
  {| MarketRow.pair := "EUR/USD";
     MarketRow.base_currency := "EUR";
     MarketRow.quote_currency := "USD";
     MarketRow.current_rate := 1.1;
     MarketRow.day_change := 1.0;
     MarketRow.trend := Bullish;
     MarketRow.rsi := 25;
     MarketRow.volatility := 0.003;
     MarketRow.macd_signal := Buy;
     MarketRow.position_size := 120000;
     MarketRow.entry_price := 1.1;
     MarketRow.take_profit := 1.11;
     MarketRow.stop_loss := 1.096;
     MarketRow.risk_reward := 2.5;
     MarketRow.expected_return := 100;
     MarketRow.signal_strength := 97 |}.

Definition sample_trade_params : PositionParameters :=
  {| position_size := 120000;
     entry_price := 1.1;
     entry_scale_1 := 1.1 * 0.9995;
     entry_scale_2 := 1.1 * 0.9990;
     stop_loss := 1.096;
     take_profit := 1.11;
     risk_reward := 2.5;
     confidence := 100;
     expected_return := 100;
     risk_amount := 480;
     volatility_class := Low;
     position_adjustment := 1.2;
     currency_adjustment := 1.0 |}.

(** ** Sorted frames *)

(** Non-increasing in [column]. *)
Definition descending {A : Type} (column : A -> R) : list A -> Prop :=
  StronglySorted (fun a b => column b <= column a).

(** ** What [load_market_data] appends for a pair *)

Definition row_record (pair base quote : string) (summary : Summary.t) : MarketRow.t :=
  let pos_params :=
    position_record base (Summary.current_rate summary) (Summary.volatility summary) in
  {| MarketRow.pair := pair;
     MarketRow.base_currency := base;
     MarketRow.quote_currency := quote;
     MarketRow.current_rate := Summary.current_rate summary;
     MarketRow.day_change := Summary.day_change_pct summary;
     MarketRow.trend := Summary.trend summary;
     MarketRow.rsi := Summary.rsi summary;
     MarketRow.volatility := Summary.volatility summary;
     MarketRow.macd_signal := Summary.macd_signal summary;
     MarketRow.position_size := position_size pos_params;
     MarketRow.entry_price := entry_price pos_params;
     MarketRow.take_profit := take_profit pos_params;
     MarketRow.stop_loss := stop_loss pos_params;
     MarketRow.risk_reward := risk_reward pos_params;
     MarketRow.expected_return := expected_return pos_params;
     MarketRow.signal_strength := _calculate_signal_strength summary pos_params |}.

(** A universe of two pairs: both at rate 1, volatility 0.02, RSI 50 and a
    MACD signal "Sell"; EUR/GBP is bullish and moved by 5 percent,
    EUR/USD is bearish and did not move. *)
Definition sample_summary (trend : Trend) (day_change_pct : R) : Summary.t :=
  {| Summary.current_rate := 1;
     Summary.day_change_pct := day_change_pct;
     Summary.rsi := 50;
     Summary.trend := trend;
     Summary.macd_signal := Sell;
     Summary.volatility := 0.02;
     Summary.support := 0.99;
     Summary.resistance := 1.01;
     Summary.volume := 0 |}.

Definition sample_currency : CurrencyWrapper :=
  {| get_available_pairs := ["EUR/GBP"; "EUR/USD"];
     get_summary := fun pair =>
       if String.eqb pair "EUR/GBP" then Ok (sample_summary Bullish 5)
       else if String.eqb pair "EUR/USD" then Ok (sample_summary Bearish 0)
       else Raise Exception |}.

Definition sample_eur_gbp : MarketRow.t :=
  row_record "EUR/GBP" "EUR" "GBP" (sample_summary Bullish 5).

Definition sample_eur_usd : MarketRow.t :=
  row_record "EUR/USD" "EUR" "USD" (sample_summary Bearish 0).

(** The processor after [processor.market_data = processor.load_market_data()]. *)
Definition sample_processor : ForexDataProcessor :=
  {| currency := sample_currency;
     market_data := load_market_data (ForexDataProcessor_init sample_currency) |}.

(** ** The last entries of the RSI pipeline *)

(** The last entries of [gain] and [loss]. *)
Definition avg_gain (close : list R) : npfloat :=
  window_mean 14 (where_ fgt0 (Fin 0) (diff close)).

Definition avg_loss (close : list R) : npfloat :=
  window_mean 14 (map fneg (where_ flt0 (Fin 0) (diff close))).

(** An entry of [100 / (1 + rs)] and of [rsi], from the entries of [gain]
    and [loss] at the same index. *)
Definition rsi_quotient (g l : npfloat) : npfloat :=
  fdiv (Fin 100) (fadd (Fin 1) (fdiv g l)).

Definition rsi_entry (g l : npfloat) : npfloat :=
  fsub (Fin 100) (if isnan (rsi_quotient g l) then Fin 50 else rsi_quotient g l).

(** Fifteen closes rising by one, fourteen equal closes, a single close. *)
Definition rising_close : list R := [1; 2; 3; 4; 5; 6; 7; 8; 9; 10; 11; 12; 13; 14; 15].
Definition flat_close : list R := [1; 1; 1; 1; 1; 1; 1; 1; 1; 1; 1; 1; 1; 1].
Definition single_close : list R := [1].

(** ** Currency wrappers with usable summaries *)

(** Every summary the wrapper returns has a positive rate and a positive
    volatility. *)
Definition positive_summaries (currency_wrapper : CurrencyWrapper) : Prop :=
  forall pair summary,
    get_summary currency_wrapper pair = Ok summary ->
    0 < Summary.current_rate summary /\ 0 < Summary.volatility summary.

(** The pairs that [load_market_data] keeps: the summary is returned and
    the pair splits at ["/"] into exactly two parts. *)
Definition loadable (currency_wrapper : CurrencyWrapper) (pair : string) : bool :=
  match get_summary currency_wrapper pair with
  | Ok _ => Nat.eqb (length (split "/" pair)) 2
  | Raise _ => false
  end.

(** [x == y] on numbers. *)
Definition Reqb (x y : R) : bool := if Req_dec_T x y then true else false.

(** ** Entries of a series *)

(** A finite entry that is not negative. *)
Definition nonneg_fin (a : npfloat) : Prop := exists x, a = Fin x /\ 0 <= x.

(** A finite entry or [NaN]. *)
Definition fin_or_nan (a : npfloat) : Prop := a = NaN \/ exists x, a = Fin x.

(** A finite entry equal to zero. *)
Definition zero_fin (a : npfloat) : Prop := exists x, a = Fin x /\ x = 0.

(** A finite entry above zero. *)
Definition positive_fin (a : npfloat) : Prop := exists x, a = Fin x /\ 0 < x.

(** The sum of a list of numbers. *)
Definition rsum (l : list R) : R := fold_right Rplus 0 l.

(** * Proofs *)

(** ** Comparisons, division, dictionaries *)

Lemma ltb_true (x y : R) : x < y -> (x <? y) = true.
Proof. intros H. unfold ltb. destruct (Rlt_dec x y); [reflexivity | contradiction]. Qed.

Lemma ltb_false (x y : R) : y <= x -> (x <? y) = false.
Proof. intros H. unfold ltb. destruct (Rlt_dec x y); [lra | reflexivity]. Qed.

Lemma geb_true (x y : R) : y <= x -> (x >=? y) = true.
Proof. intros H. unfold geb. destruct (Rle_dec y x); [reflexivity | contradiction]. Qed.

Lemma geb_false (x y : R) : x < y -> (x >=? y) = false.
Proof. intros H. unfold geb. destruct (Rle_dec y x); [lra | reflexivity]. Qed.

Lemma pydiv_ok (x y : R) : y <> 0 -> pydiv x y = Ok (x / y).
Proof. intros H. unfold pydiv. destruct (Req_dec_T y 0); [contradiction | reflexivity]. Qed.

Lemma pydiv_zero (x : R) : pydiv x 0 = Raise ZeroDivisionError.
Proof. unfold pydiv. destruct (Req_dec_T 0 0); [reflexivity | lra]. Qed.

Lemma quotient_of_multiple (x k : R) : x <> 0 -> x * k / x = k.
Proof. intros H. field. exact H. Qed.

(** Case analysis on every comparison left in the goal. *)
Ltac cmp_cases :=
  unfold gtb, ltb, geb in *;
  repeat match goal with
         | |- context [Rlt_dec ?a ?b] => destruct (Rlt_dec a b); try lra
         | |- context [Rle_dec ?a ?b] => destruct (Rle_dec a b); try lra
         end.


Section DictFacts.
Context {V : Type}.

Lemma dict_lookup_In (k : string) (d : list (string * V)) (v : V) :
  dict_lookup k d = Some v -> In (k, v) d.
Proof.
  induction d as [|[k' v'] rest IH]; simpl; [discriminate|].
  destruct (dict_lookup k rest) as [w|].
  - intros [= ->]. right. now apply IH.
  - destruct (String.eqb_spec k k') as [->|_]; [|discriminate].
    intros [= ->]. now left.
Qed.

Lemma dict_lookup_None (k : string) (d : list (string * V)) :
  ~ In k (map fst d) -> dict_lookup k d = None.
Proof.
  induction d as [|[k' v'] rest IH]; simpl; [reflexivity|].
  intros H. rewrite IH by tauto.
  destruct (String.eqb_spec k k') as [->|_]; [exfalso; tauto | reflexivity].
Qed.

Lemma dict_get_Forall (P : V -> Prop) (k : string) (d : list (string * V)) (default : V) :
  Forall (fun kv => P (snd kv)) d -> P default -> P (dict_get k d default).
Proof.
  intros Hd Hdef. unfold dict_get.
  destruct (dict_lookup k d) as [v|] eqn:E; [|exact Hdef].
  apply dict_lookup_In in E. rewrite Forall_forall in Hd. exact (Hd _ E).
Qed.
End DictFacts.

(** ** Facts about the tables *)

Lemma currency_multipliers_positive :
  Forall (fun kv => 0 < stop (snd kv) /\ 0 < profit (snd kv)) currency_multipliers.
Proof. unfold currency_multipliers. repeat constructor; simpl; lra. Qed.

Lemma multipliers_positive (base_currency : string) :
  let mult := dict_get base_currency currency_multipliers default_multipliers in
  0 < stop mult /\ 0 < profit mult.
Proof.
  apply (dict_get_Forall (fun m => 0 < stop m /\ 0 < profit m)).
  - exact currency_multipliers_positive.
  - simpl; lra.
Qed.

Lemma base_lot_positive (base_currency : string) :
  0 < base_lot (dict_get base_currency position_config default_position_config).
Proof.
  apply (dict_get_Forall (fun c => 0 < base_lot c)).
  - unfold position_config. repeat constructor; simpl; lra.
  - simpl; lra.
Qed.

Lemma currency_adj_positive (base_currency : string) :
  0 < dict_get base_currency currency_volatility 1.0.
Proof.
  apply (dict_get_Forall (fun c => 0 < c)).
  - unfold currency_volatility. repeat constructor; simpl; lra.
  - lra.
Qed.

Lemma volatility_adjustment_positive (volatility : R) :
  0 < volatility_adjustment_of volatility.
Proof. unfold volatility_adjustment_of. cmp_cases. Qed.

Lemma sqrt_252_bounds : 15.8745 < sqrt 252 < 15.8746.
Proof.
  split; (apply Rsqr_incrst_0; [| lra || apply sqrt_pos ..]);
    rewrite Rsqr_sqrt by lra; unfold Rsqr; lra.
Qed.

(** ** Facts about the distances *)

Lemma profit_mult_positive (volatility : R) (base_currency : string) :
  0 < profit_mult_of volatility base_currency.
Proof.
  unfold profit_mult_of.
  destruct (multipliers_positive base_currency) as [_ Hp].
  cbv zeta in Hp. cmp_cases.
Qed.

Lemma dynamic_distances_profit (volatility atr daily_range : R) (base_currency : string) :
  snd (_calculate_dynamic_distances volatility atr daily_range base_currency)
  = fst (_calculate_dynamic_distances volatility atr daily_range base_currency)
    * profit_mult_of volatility base_currency.
Proof.
  unfold _calculate_dynamic_distances, profit_mult_of.
  destruct (volatility <? 0.005); [reflexivity|].
  destruct (volatility <? 0.01); reflexivity.
Qed.

(** The stop distance has the sign of [atr] when [daily_range] is
    [atr * sqrt 252]. *)
Lemma dynamic_stop_positive (volatility atr : R) (base_currency : string) :
  0 < atr ->
  0 < fst (_calculate_dynamic_distances volatility atr (atr * sqrt 252) base_currency).
Proof.
  intros Hatr. unfold _calculate_dynamic_distances.
  destruct (multipliers_positive base_currency) as [Hs _]. cbv zeta in Hs.
  set (mult := dict_get base_currency currency_multipliers default_multipliers) in *.
  destruct (volatility <? 0.005); [|destruct (volatility <? 0.01)]; simpl;
    (eapply Rlt_le_trans; [|apply Rmax_l]); nra.
Qed.

Lemma dynamic_stop_negative (volatility atr : R) (base_currency : string) :
  atr < 0 ->
  fst (_calculate_dynamic_distances volatility atr (atr * sqrt 252) base_currency) < 0.
Proof.
  intros Hatr. unfold _calculate_dynamic_distances.
  destruct (multipliers_positive base_currency) as [Hs _]. cbv zeta in Hs.
  set (mult := dict_get base_currency currency_multipliers default_multipliers) in *.
  pose proof sqrt_252_bounds as Hq.
  destruct (volatility <? 0.005); [|destruct (volatility <? 0.01)]; simpl;
    apply Rmax_lub_lt; nra.
Qed.

Lemma dynamic_stop_zero (volatility : R) (base_currency : string) :
  fst (_calculate_dynamic_distances volatility 0 (0 * sqrt 252) base_currency) = 0.
Proof.
  unfold _calculate_dynamic_distances.
  destruct (volatility <? 0.005); [|destruct (volatility <? 0.01)]; simpl;
    rewrite !Rmult_0_l; apply Rmax_left; lra.
Qed.

Lemma position_parameters_ok (base_currency : string) (current_price volatility : R) :
  volatility <> 0 -> current_price <> 0 ->
  _calculate_position_parameters base_currency current_price volatility
  = Ok (position_record base_currency current_price volatility).
Proof.
  intros Hv Hp.
  assert (Hsd : fst (_calculate_dynamic_distances volatility (volatility * current_price)
                       (volatility * current_price * sqrt 252) base_currency) <> 0).
  { destruct (Rtotal_order (volatility * current_price) 0) as [H|[H|H]].
    - apply Rlt_not_eq. now apply dynamic_stop_negative.
    - exfalso. apply Rmult_integral in H. tauto.
    - apply Rgt_not_eq. now apply dynamic_stop_positive. }
  unfold _calculate_position_parameters, position_record,
    volatility_adjustment_of, volatility_class_of.
  destruct (_calculate_dynamic_distances _ _ _ _) as [sd pd] eqn:E.
  simpl in Hsd.
  destruct (volatility <? 0.005); [|destruct (volatility <? 0.01)];
    cbv zeta; rewrite (pydiv_ok pd sd) by assumption; cbn [bind];
    rewrite (pydiv_ok 1 volatility) by assumption; cbn [bind];
    rewrite pydiv_ok by (apply Rgt_not_eq, base_lot_positive); cbn [bind fst snd];
    reflexivity.
Qed.

Lemma position_parameters_zero (base_currency : string) (current_price volatility : R) :
  volatility = 0 \/ current_price = 0 ->
  _calculate_position_parameters base_currency current_price volatility
  = Raise ZeroDivisionError.
Proof.
  intros H.
  assert (Hatr : volatility * current_price = 0) by (destruct H as [-> | ->]; lra).
  unfold _calculate_position_parameters. rewrite Hatr.
  pose proof (dynamic_stop_zero volatility base_currency) as Hz.
  destruct (_calculate_dynamic_distances _ _ _ _) as [sd pd].
  simpl in Hz. subst sd.
  destruct (volatility <? 0.005); [|destruct (volatility <? 0.01)];
    cbv zeta; rewrite pydiv_zero; reflexivity.
Qed.

Lemma position_parameters_inv
    (base_currency : string) (current_price volatility : R) (p : PositionParameters) :
  _calculate_position_parameters base_currency current_price volatility = Ok p ->
  volatility <> 0 /\ current_price <> 0
  /\ p = position_record base_currency current_price volatility.
Proof.
  intros H.
  destruct (Req_dec_T volatility 0) as [Hv|Hv].
  { rewrite position_parameters_zero in H by tauto. discriminate. }
  destruct (Req_dec_T current_price 0) as [Hp|Hp].
  { rewrite position_parameters_zero in H by tauto. discriminate. }
  rewrite position_parameters_ok in H by assumption.
  injection H as <-. tauto.
Qed.

(** ** The position sizer: levels and ratios *)

(** C2.  With a positive price and a positive volatility the sizer
    returns levels with [stop_loss < entry_price < take_profit], and its
    [risk_reward] is [(take_profit - entry_price) / (entry_price -
    stop_loss)]. *)
Theorem position_levels_ordered
    (base_currency : string) (current_price volatility : R) :
  0 < current_price -> 0 < volatility ->
  exists p,
    _calculate_position_parameters base_currency current_price volatility = Ok p
    /\ stop_loss p < entry_price p < take_profit p
    /\ risk_reward p = (take_profit p - entry_price p) / (entry_price p - stop_loss p).
Proof.
  intros Hp Hv.
  exists (position_record base_currency current_price volatility).
  split; [apply position_parameters_ok; lra|].
  unfold position_record; simpl.
  assert (Hatr : 0 < volatility * current_price) by nra.
  pose proof (dynamic_stop_positive volatility _ base_currency Hatr) as Hsd.
  pose proof (profit_mult_positive volatility base_currency) as Hpm.
  rewrite dynamic_distances_profit.
  set (sd := fst _) in *. set (pm := profit_mult_of _ _) in *.
  repeat split; try nra.
  f_equal; lra.
Qed.

Lemma position_levels_ordered_witness :
  exists p,
    _calculate_position_parameters "EUR" 1.1 0.004 = Ok p
    /\ stop_loss p < entry_price p < take_profit p
    /\ risk_reward p = (take_profit p - entry_price p) / (entry_price p - stop_loss p).
Proof. apply (position_levels_ordered "EUR" 1.1 0.004); lra. Defined.

(** C4, as the claim has it, fails at [volatility = 0] with a positive
    price: both arguments of [max] are zero, the stop distance is zero and
    the division raises. *)
Lemma stop_distance_zero_at_zero_volatility :
  0 < 1.1 /\ 0 <= 0
  /\ fst (_calculate_dynamic_distances 0 (0 * 1.1) (0 * 1.1 * sqrt 252) "EUR") = 0
  /\ _calculate_position_parameters "EUR" 1.1 0 = Raise ZeroDivisionError.
Proof.
  repeat split; try lra.
  - replace (0 * 1.1) with 0 by lra. apply dynamic_stop_zero.
  - apply position_parameters_zero. now left.
Qed.

(** C4, amended.  With a positive price and a positive volatility the
    stop distance is positive, so the division [profit_distance /
    stop_distance] has a non-zero divisor and the sizer returns, with
    that quotient as [risk_reward]. *)
Theorem stop_distance_positive
    (base_currency : string) (current_price volatility : R) :
  0 < current_price -> 0 < volatility ->
  let atr := volatility * current_price in
  let d := _calculate_dynamic_distances volatility atr (atr * sqrt 252) base_currency in
  0 < fst d
  /\ pydiv (snd d) (fst d) = Ok (snd d / fst d)
  /\ exists p,
       _calculate_position_parameters base_currency current_price volatility = Ok p
       /\ risk_reward p = snd d / fst d.
Proof.
  intros Hp Hv atr d.
  assert (Hatr : 0 < atr) by (unfold atr; nra).
  pose proof (dynamic_stop_positive volatility _ base_currency Hatr) as Hsd.
  fold d in Hsd.
  split; [exact Hsd|].
  split; [apply pydiv_ok; lra|].
  exists (position_record base_currency current_price volatility).
  split; [apply position_parameters_ok; lra | reflexivity].
Qed.

Lemma stop_distance_positive_witness :
  let atr := 0.004 * 1.1 in
  let d := _calculate_dynamic_distances 0.004 atr (atr * sqrt 252) "EUR" in
  0 < fst d
  /\ pydiv (snd d) (fst d) = Ok (snd d / fst d)
  /\ exists p,
       _calculate_position_parameters "EUR" 1.1 0.004 = Ok p
       /\ risk_reward p = snd d / fst d.
Proof. apply (stop_distance_positive "EUR" 1.1 0.004); lra. Defined.

(** C7, as the claim has it, fails: a negative price is taken as it is
    and a record is returned. *)
Lemma negative_price_accepted :
  - 1.1 <= 0
  /\ _calculate_position_parameters "EUR" (- 1.1) 0.004
     = Ok (position_record "EUR" (- 1.1) 0.004)
  /\ _calculate_position_parameters "EUR" (- 1.1) 0.004 <> Raise InvalidInputError.
Proof.
  assert (H : _calculate_position_parameters "EUR" (- 1.1) 0.004
              = Ok (position_record "EUR" (- 1.1) 0.004))
    by (apply position_parameters_ok; lra).
  repeat split; [lra | exact H | rewrite H; discriminate].
Qed.

(** C7, amended.  The sizer does not check its inputs: with a price
    below zero or a volatility below zero, and neither of the two equal
    to zero, the call does not fail; it returns the record computed from
    the inputs as they are, with the given price as [entry_price]. *)
Theorem invalid_inputs_not_rejected
    (base_currency : string) (current_price volatility : R) :
  (current_price < 0 /\ volatility <> 0) \/ (volatility < 0 /\ current_price <> 0) ->
  exists p,
    _calculate_position_parameters base_currency current_price volatility = Ok p
    /\ p = position_record base_currency current_price volatility
    /\ entry_price p = current_price.
Proof.
  intros H.
  assert (Hv : volatility <> 0) by (destruct H as [[_ Hv]|[Hv _]]; [exact Hv | lra]).
  assert (Hp : current_price <> 0) by (destruct H as [[Hp _]|[_ Hp]]; [lra | exact Hp]).
  exists (position_record base_currency current_price volatility).
  split; [now apply position_parameters_ok|].
  split; reflexivity.
Qed.

Lemma invalid_inputs_not_rejected_witness :
  exists p,
    _calculate_position_parameters "EUR" 1.1 (- 0.004) = Ok p
    /\ p = position_record "EUR" 1.1 (- 0.004)
    /\ entry_price p = 1.1.
Proof.
  apply (invalid_inputs_not_rejected "EUR" 1.1 (- 0.004)).
  right. split; lra.
Defined.

(** ** The position sizer at EUR, 1.1000, 0.004 *)

Lemma eur_config :
  dict_get "EUR" position_config default_position_config
  = {| base_lot := 100000; risk_factor := 1.0 |}.
Proof. reflexivity. Qed.

Lemma eur_currency_adj : dict_get "EUR" currency_volatility 1.0 = 1.0.
Proof. reflexivity. Qed.

Lemma eur_multipliers :
  dict_get "EUR" currency_multipliers default_multipliers
  = {| stop := 1.2; profit := 2.5 |}.
Proof. reflexivity. Qed.

Lemma volatility_adjustment_at_0_004 : volatility_adjustment_of 0.004 = 1.0.
Proof. unfold volatility_adjustment_of. cmp_cases. Qed.

Lemma eur_position_size :
  position_size (position_record "EUR" 1.1 0.004) = 100000.
Proof.
  unfold position_record; cbn [position_size].
  rewrite eur_config, eur_currency_adj, volatility_adjustment_at_0_004.
  cbn [base_lot]. lra.
Qed.

Lemma eur_distances :
  _calculate_dynamic_distances 0.004 (0.004 * 1.1) (0.004 * 1.1 * sqrt 252) "EUR"
  = (0.0044 * sqrt 252 * 0.1, 0.0044 * sqrt 252 * 0.1 * (2.5 * 1.1)).
Proof.
  pose proof sqrt_252_bounds as Hq.
  unfold _calculate_dynamic_distances. rewrite eur_multipliers.
  rewrite (ltb_true 0.004 0.005) by lra. simpl.
  rewrite Rmax_right by lra.
  f_equal; lra.
Qed.

(** C5, as the claim has it, fails on the position size: [0.004 < 0.004]
    is false, the volatility adjustment stays [1.0] and the size is
    [100000], not [120000]. *)
Lemma eur_position_size_not_120000 :
  exists p,
    _calculate_position_parameters "EUR" 1.1 0.004 = Ok p
    /\ position_adjustment p = 1.0
    /\ position_size p = 100000
    /\ position_size p <> 120000.
Proof.
  exists (position_record "EUR" 1.1 0.004).
  split; [apply position_parameters_ok; lra|].
  pose proof eur_position_size as Hs.
  repeat split.
  - apply volatility_adjustment_at_0_004.
  - exact Hs.
  - rewrite Hs. lra.
Qed.

(** C5, amended.  At EUR, 1.1000, 0.004 the sizer returns
    [position_size = 100000] (base lot 100000, volatility adjustment 1.0,
    currency adjustment 1.0); with [atr = 0.0044] and [daily_range =
    0.0044 * sqrt 252], about 0.0699, the stop distance is
    [max (0.0044 * 1.2) (daily_range * 0.10) = daily_range * 0.10], about
    0.00699, the profit distance is the stop distance times [2.5 * 1.1],
    about 0.0192, and [risk_reward = 2.75]. *)
Theorem eur_scenario :
  exists p,
    _calculate_position_parameters "EUR" 1.1 0.004 = Ok p
    /\ position_size p = 100000 * 1.0 * 1.0
    /\ position_adjustment p = 1.0 /\ currency_adjustment p = 1.0
    /\ 0.004 * 1.1 = 0.0044
    /\ Rabs (0.0044 * sqrt 252 - 0.0699) < 0.0001
    /\ entry_price p - stop_loss p
       = fst (_calculate_dynamic_distances 0.004 0.0044 (0.0044 * sqrt 252) "EUR")
    /\ entry_price p - stop_loss p = Rmax (0.0044 * 1.2) (0.0044 * sqrt 252 * 0.10)
    /\ entry_price p - stop_loss p = 0.0044 * sqrt 252 * 0.10
    /\ Rabs (entry_price p - stop_loss p - 0.00699) < 0.00001
    /\ take_profit p - entry_price p = (entry_price p - stop_loss p) * 2.5 * 1.1
    /\ Rabs (take_profit p - entry_price p - 0.0192) < 0.0001
    /\ risk_reward p = 2.75.
Proof.
  pose proof sqrt_252_bounds as Hq.
  exists (position_record "EUR" 1.1 0.004).
  split; [apply position_parameters_ok; lra|].
  split; [rewrite eur_position_size; lra|].
  split; [apply volatility_adjustment_at_0_004|].
  split; [apply eur_currency_adj|].
  split; [lra|].
  split; [apply Rabs_def1; lra|].
  unfold position_record; simpl.
  replace 0.0044 with (0.004 * 1.1) by lra.
  rewrite eur_distances; simpl.
  repeat split.
  - lra.
  - rewrite Rmax_right by lra. lra.
  - lra.
  - apply Rabs_def1; lra.
  - lra.
  - apply Rabs_def1; lra.
  - rewrite quotient_of_multiple by lra. lra.
Qed.

(** ** The risk-profile table *)

(** C8, as the claim has it, fails on the distinct risk factors: EUR and
    USD are two codes of the table with the same risk factor. *)
Lemma eur_usd_same_risk_factor :
  In "EUR" major_currencies /\ In "USD" major_currencies /\ "EUR" <> "USD"
  /\ dict_lookup "EUR" position_config = Some {| base_lot := 100000; risk_factor := 1.0 |}
  /\ dict_lookup "USD" position_config = Some {| base_lot := 100000; risk_factor := 1.0 |}
  /\ risk_factor_of "EUR" = risk_factor_of "USD".
Proof. repeat split; simpl; try tauto; discriminate. Qed.

Lemma major_risk_factors :
  risk_factor_of "EUR" = 1.0 /\ risk_factor_of "GBP" = 1.2
  /\ risk_factor_of "USD" = 1.0 /\ risk_factor_of "JPY" = 0.8
  /\ risk_factor_of "CHF" = 0.9 /\ risk_factor_of "AUD" = 1.3
  /\ risk_factor_of "NZD" = 1.4 /\ risk_factor_of "CAD" = 1.1.
Proof. repeat split. Qed.

(** C8, amended.  The table has a profile for each of the 8 major
    currencies; their risk factors are pairwise distinct except for EUR
    and USD, which share 1.0; a code outside the table gets the default
    profile (base lot 100000, risk factor 1.0). *)
Theorem risk_profile_table :
  map fst position_config = major_currencies
  /\ (forall code, In code major_currencies ->
        exists profile, dict_lookup code position_config = Some profile
                        /\ dict_get code position_config default_position_config = profile)
  /\ (forall c1 c2, In c1 major_currencies -> In c2 major_currencies -> c1 <> c2 ->
        risk_factor_of c1 = risk_factor_of c2 ->
        (c1 = "EUR" /\ c2 = "USD") \/ (c1 = "USD" /\ c2 = "EUR"))
  /\ (forall code, ~ In code major_currencies ->
        dict_get code position_config default_position_config
        = {| base_lot := 100000; risk_factor := 1.0 |}).
Proof.
  split; [reflexivity|].
  split.
  { intros code H. simpl in H.
    repeat (destruct H as [<-|H]; [eexists; split; reflexivity|]). contradiction. }
  split.
  { intros c1 c2 H1 H2 Hne Heq.
    destruct major_risk_factors as (E1 & E2 & E3 & E4 & E5 & E6 & E7 & E8).
    simpl in H1, H2.
    repeat (destruct H1 as [<-|H1]); try contradiction;
      repeat (destruct H2 as [<-|H2]); try contradiction;
      try (exfalso; apply Hne; reflexivity);
      try (left; split; reflexivity); try (right; split; reflexivity);
      exfalso;
      rewrite ?E1, ?E2, ?E3, ?E4, ?E5, ?E6, ?E7, ?E8 in Heq; lra. }
  intros code H. unfold dict_get.
  rewrite dict_lookup_None; [reflexivity | exact H].
Qed.

Lemma risk_profile_table_witness :
  (exists profile, dict_lookup "JPY" position_config = Some profile
                   /\ dict_get "JPY" position_config default_position_config = profile)
  /\ ((("EUR" = "EUR" /\ "USD" = "USD") \/ ("EUR" = "USD" /\ "USD" = "EUR")))
  /\ dict_get "XXX" position_config default_position_config
     = {| base_lot := 100000; risk_factor := 1.0 |}.
Proof.
  destruct risk_profile_table as (_ & Hin & Hdistinct & Hdefault).
  split; [apply Hin; simpl; tauto|].
  split.
  - apply Hdistinct; [simpl; tauto | simpl; tauto | discriminate | reflexivity].
  - apply Hdefault. simpl. intuition discriminate.
Defined.

(** ** The overwritten stop/profit computation *)

(** C9.  The stop and profit distances of the first, fixed-factor
    computation are overwritten by those of
    [_calculate_dynamic_distances] before any use: the sizer equals the
    sizer without that computation on every input, and the returned
    [stop_loss] and [take_profit] are the price minus and plus the
    distances of [_calculate_dynamic_distances]. *)
Theorem regime_block_overwritten
    (base_currency : string) (current_price volatility : R) :
  _calculate_position_parameters base_currency current_price volatility
  = _calculate_position_parameters_without_regime_block
      base_currency current_price volatility
  /\ forall p,
       _calculate_position_parameters base_currency current_price volatility = Ok p ->
       let atr := volatility * current_price in
       let d := _calculate_dynamic_distances
                  volatility atr (atr * sqrt 252) base_currency in
       stop_loss p = current_price - fst d
       /\ take_profit p = current_price + snd d.
Proof.
  split.
  - unfold _calculate_position_parameters,
      _calculate_position_parameters_without_regime_block.
    destruct (volatility <? 0.005); [|destruct (volatility <? 0.01)]; reflexivity.
  - intros p H. apply position_parameters_inv in H as (_ & _ & ->).
    split; reflexivity.
Qed.

Lemma regime_block_overwritten_witness :
  let d := _calculate_dynamic_distances
             0.004 (0.004 * 1.1) (0.004 * 1.1 * sqrt 252) "EUR" in
  stop_loss (position_record "EUR" 1.1 0.004) = 1.1 - fst d
  /\ take_profit (position_record "EUR" 1.1 0.004) = 1.1 + snd d.
Proof.
  apply (proj2 (regime_block_overwritten "EUR" 1.1 0.004)).
  apply position_parameters_ok; lra.
Defined.

(** ** The sign of the expected return *)

(** C10.  When the returned [risk_amount] is positive, [expected_return]
    is positive exactly when [risk_reward > 11/9]; and [risk_amount] is
    positive whenever the price and the volatility are. *)
Theorem expected_return_positive_iff
    (base_currency : string) (current_price volatility : R) :
  (forall p,
     _calculate_position_parameters base_currency current_price volatility = Ok p ->
     0 < risk_amount p ->
     expected_return p = (risk_reward p * 0.45 - 0.55) * risk_amount p
     /\ (0 < expected_return p <-> 11 / 9 < risk_reward p))
  /\ (0 < current_price -> 0 < volatility ->
      exists p,
        _calculate_position_parameters base_currency current_price volatility = Ok p
        /\ 0 < risk_amount p).
Proof.
  split.
  - intros p H Hrisk. apply position_parameters_inv in H as (_ & _ & ->).
    unfold position_record in *; simpl in *.
    set (rr := snd _ / fst _) in *. set (amount := fst _ * _) in *.
    split; [reflexivity|]. split; intros H; nra.
  - intros Hp Hv.
    exists (position_record base_currency current_price volatility).
    split; [apply position_parameters_ok; lra|].
    unfold position_record; simpl.
    assert (Hatr : 0 < volatility * current_price) by nra.
    pose proof (dynamic_stop_positive volatility _ base_currency Hatr) as Hsd.
    pose proof (base_lot_positive base_currency) as Hlot.
    pose proof (currency_adj_positive base_currency) as Hadj.
    pose proof (volatility_adjustment_positive volatility) as Hva.
    repeat apply Rmult_lt_0_compat; assumption.
Qed.

Lemma expected_return_positive_iff_witness :
  exists p,
    _calculate_position_parameters "EUR" 1.1 0.004 = Ok p
    /\ 0 < risk_amount p
    /\ expected_return p = (risk_reward p * 0.45 - 0.55) * risk_amount p
    /\ (0 < expected_return p <-> 11 / 9 < risk_reward p).
Proof.
  destruct (expected_return_positive_iff "EUR" 1.1 0.004) as [Hiff Hpos].
  destruct Hpos as (p & Hok & Hrisk); [lra | lra |].
  exists p. split; [exact Hok|]. split; [exact Hrisk|].
  exact (Hiff p Hok Hrisk).
Defined.

(** * The opportunity score *)

Lemma rr_score_positive (rr : R) : 0 < rr -> 0 < Rmin (rr * 10) 25.
Proof. intros H. apply Rmin_glb_lt; lra. Qed.

Lemma momentum_score_nonneg (day_change : R) : 0 <= Rmin (Rabs day_change * 2) 10.
Proof. pose proof (Rabs_pos day_change). apply Rmin_glb; lra. Qed.

(** C1.  For a row with [volatility >= 0] and an RSI in [[0, 100]], any
    day change, and trade parameters with [risk_reward > 0], the scorer
    returns a score in [[0, 100]] (under the configuration of [__init__],
    and under any other whose [max_volatility] is not zero). *)
Theorem opportunity_score_bounded
    (trading_config : TradingConfig) (row : MarketRow.t) (trade_params : PositionParameters) :
  max_volatility trading_config <> 0 ->
  0 <= MarketRow.volatility row ->
  0 <= MarketRow.rsi row <= 100 ->
  0 < risk_reward trade_params ->
  exists score,
    _calculate_opportunity_score trading_config row trade_params = Ok score
    /\ 0 <= score <= 100.
Proof.
  intros Hmax _ _ Hrr.
  unfold _calculate_opportunity_score.
  rewrite pydiv_ok by exact Hmax. cbn [bind].
  eexists. split; [reflexivity|].
  split; [|apply Rmin_r].
  apply Rmin_glb; [|lra].
  pose proof (rr_score_positive _ Hrr) as H1.
  pose proof (momentum_score_nonneg (MarketRow.day_change row)) as H2.
  pose proof (Rmax_r ((1 - MarketRow.volatility row / max_volatility trading_config) * 15) 0) as H3.
  destruct (MarketRow.trend row);
    destruct (expected_return trade_params >? 0);
    destruct (expected_return trade_params <? 0);
    destruct (MarketRow.rsi row <? rsi_oversold trading_config);
    destruct (MarketRow.rsi row >? rsi_overbought trading_config); lra.
Qed.

Lemma opportunity_score_bounded_witness :
  exists score,
    _calculate_opportunity_score trading_config_init sample_row sample_trade_params
    = Ok score
    /\ 0 <= score <= 100.
Proof.
  apply (opportunity_score_bounded trading_config_init sample_row sample_trade_params);
    simpl; lra.
Defined.

(** The scenario of the specification: 30 + 20 + 25 + 12.75 + 2 = 89.75. *)
Example opportunity_score_sample :
  _calculate_opportunity_score trading_config_init sample_row sample_trade_params
  = Ok 89.75.
Proof.
  unfold _calculate_opportunity_score, trading_config_init, sample_row, sample_trade_params.
  cbn [MarketRow.trend MarketRow.rsi MarketRow.volatility MarketRow.day_change expected_return risk_reward
       max_volatility rsi_oversold rsi_overbought].
  rewrite pydiv_ok by lra. cbn [bind].
  unfold gtb. rewrite (ltb_true 0 100), (ltb_true 25 30) by lra.
  rewrite (Rmin_right (2.5 * 10) 25) by lra.
  rewrite Rmax_left by lra.
  rewrite (Rabs_pos_eq 1.0) by lra.
  rewrite (Rmin_left (1.0 * 2) 10) by lra.
  rewrite Rmin_left by lra.
  f_equal. lra.
Qed.

(** * Ranking *)

(** ** Sorting *)

Section SortValuesFacts.
Context {A : Type} (column : A -> R).

Lemma insert_descending_perm (x : A) (rows : list A) :
  Permutation (insert_descending column x rows) (x :: rows).
Proof.
  induction rows as [|y rest IH]; simpl; [reflexivity|].
  destruct (column x >=? column y); [reflexivity|].
  rewrite IH. apply perm_swap.
Qed.

Lemma sort_values_descending_perm (rows : list A) :
  Permutation (sort_values_descending column rows) rows.
Proof.
  induction rows as [|x rest IH]; simpl; [reflexivity|].
  rewrite insert_descending_perm. now apply perm_skip.
Qed.

Lemma insert_descending_sorted (x : A) (rows : list A) :
  descending column rows -> descending column (insert_descending column x rows).
Proof.
  unfold descending.
  induction rows as [|y rest IH]; intros Hs; simpl.
  - repeat constructor.
  - inversion Hs as [|? ? Hrest Hy]; subst.
    unfold geb. destruct (Rle_dec (column y) (column x)) as [Hle|Hgt].
    + constructor; [exact Hs|].
      constructor; [exact Hle|].
      rewrite Forall_forall in *. intros z Hz. specialize (Hy z Hz). lra.
    + constructor; [now apply IH|].
      rewrite Forall_forall in *. intros z Hz.
      apply (Permutation_in _ (insert_descending_perm x rest)) in Hz.
      destruct Hz as [<-|Hz]; [lra | now apply Hy].
Qed.

Lemma sort_values_descending_sorted (rows : list A) :
  descending column (sort_values_descending column rows).
Proof.
  induction rows as [|x rest IH]; simpl.
  - constructor.
  - now apply insert_descending_sorted.
Qed.
End SortValuesFacts.

(** ** Rows of the market data *)

Lemma market_row_ok
    (currency : CurrencyWrapper) (pair base quote : string) (summary : Summary.t) :
  get_summary currency pair = Ok summary ->
  split "/" pair = [base; quote] ->
  Summary.volatility summary <> 0 -> Summary.current_rate summary <> 0 ->
  market_row currency pair = Ok (row_record pair base quote summary).
Proof.
  intros Hs Hsplit Hv Hp. unfold market_row.
  rewrite Hs; cbn [bind]. rewrite Hsplit.
  rewrite position_parameters_ok by assumption. reflexivity.
Qed.

Lemma risk_reward_of_record (base_currency : string) (current_price volatility : R) :
  volatility <> 0 -> current_price <> 0 ->
  risk_reward (position_record base_currency current_price volatility)
  = profit_mult_of volatility base_currency.
Proof.
  intros Hv Hp. unfold position_record; cbn [risk_reward].
  rewrite dynamic_distances_profit. apply quotient_of_multiple.
  destruct (Rtotal_order (volatility * current_price) 0) as [H|[H|H]].
  - apply Rlt_not_eq. now apply dynamic_stop_negative.
  - exfalso. apply Rmult_integral in H. tauto.
  - apply Rgt_not_eq. now apply dynamic_stop_positive.
Qed.

Lemma sample_market_data :
  market_data sample_processor = [sample_eur_gbp; sample_eur_usd].
Proof.
  unfold sample_processor, load_market_data; cbn [market_data currency
    ForexDataProcessor_init get_available_pairs sample_currency flat_map app].
  rewrite (market_row_ok _ "EUR/GBP" "EUR" "GBP" (sample_summary Bullish 5));
    [|reflexivity|reflexivity|simpl; lra|simpl; lra].
  rewrite (market_row_ok _ "EUR/USD" "EUR" "USD" (sample_summary Bearish 0));
    [|reflexivity|reflexivity|simpl; lra|simpl; lra].
  reflexivity.
Qed.

Lemma sample_risk_reward (trend : Trend) (day_change_pct : R) (pair base quote : string) :
  base = "EUR" ->
  MarketRow.risk_reward (row_record pair base quote (sample_summary trend day_change_pct)) = 2.25.
Proof.
  intros ->. unfold row_record; cbn [MarketRow.risk_reward sample_summary
    Summary.current_rate Summary.volatility].
  rewrite risk_reward_of_record by lra.
  unfold profit_mult_of. rewrite eur_multipliers.
  rewrite (ltb_false 0.02 0.005), (ltb_false 0.02 0.01) by lra.
  cbn [profit]. lra.
Qed.

Lemma sample_signal_strength :
  MarketRow.signal_strength sample_eur_gbp = 22.5
  /\ MarketRow.signal_strength sample_eur_usd = 52.5.
Proof.
  pose proof (sample_risk_reward Bullish 5 "EUR/GBP" "EUR" "GBP" eq_refl) as Ha.
  pose proof (sample_risk_reward Bearish 0 "EUR/USD" "EUR" "USD" eq_refl) as Hb.
  unfold sample_eur_gbp, sample_eur_usd, row_record in *.
  cbn [MarketRow.risk_reward MarketRow.signal_strength] in *.
  unfold _calculate_signal_strength. rewrite Ha, Hb.
  cbn [sample_summary Summary.trend Summary.macd_signal Summary.rsi Summary.volatility].
  unfold gtb.
  rewrite (ltb_false 50 30), (ltb_false 50 45), (ltb_false 70 50), (ltb_false 55 50) by lra.
  rewrite (Rmin_left (2.25 * 10) 25) by lra.
  replace ((1 - 0.02 / 0.02) * 20) with 0 by lra.
  rewrite (Rmin_left 0 20), (Rmax_left 0 0) by lra.
  split; lra.
Qed.

Lemma risk_amount_of_record_positive
    (base_currency : string) (current_price volatility : R) :
  0 < current_price -> 0 < volatility ->
  0 < risk_amount (position_record base_currency current_price volatility).
Proof.
  intros Hp Hv. unfold position_record; cbn [risk_amount].
  assert (Hatr : 0 < volatility * current_price) by nra.
  pose proof (dynamic_stop_positive volatility _ base_currency Hatr).
  pose proof (base_lot_positive base_currency).
  pose proof (currency_adj_positive base_currency).
  pose proof (volatility_adjustment_positive volatility).
  repeat apply Rmult_lt_0_compat; assumption.
Qed.

Lemma expected_return_of_record
    (base_currency : string) (current_price volatility : R) :
  let p := position_record base_currency current_price volatility in
  expected_return p = (risk_reward p * 0.45 - 0.55) * risk_amount p.
Proof. reflexivity. Qed.

Lemma sample_expected_return_positive :
  0 < expected_return (position_record "EUR" 1 0.02).
Proof.
  rewrite expected_return_of_record.
  pose proof (risk_amount_of_record_positive "EUR" 1 0.02) as Hrisk.
  pose proof (sample_risk_reward Bullish 0 "EUR/USD" "EUR" "USD" eq_refl) as Hrr.
  unfold row_record in Hrr; cbn [MarketRow.risk_reward sample_summary
    Summary.current_rate Summary.volatility] in Hrr.
  rewrite Hrr. nra.
Qed.

Lemma sample_opportunity_scores :
  exists first second,
    analyze_row trading_config_init sample_eur_usd = Ok first
    /\ analyze_row trading_config_init sample_eur_gbp = Ok second
    /\ opportunity_score first = 22.5
    /\ opportunity_score second = 62.5.
Proof.
  pose proof sample_expected_return_positive as Her.
  pose proof (sample_risk_reward Bullish 0 "EUR/USD" "EUR" "USD" eq_refl) as Hrr.
  unfold row_record in Hrr; cbn [MarketRow.risk_reward sample_summary
    Summary.current_rate Summary.volatility] in Hrr.
  unfold analyze_row, sample_eur_usd, sample_eur_gbp, row_record.
  cbn [MarketRow.base_currency MarketRow.current_rate MarketRow.volatility sample_summary
       Summary.current_rate Summary.volatility].
  rewrite position_parameters_ok by lra. cbn [bind].
  unfold _calculate_opportunity_score.
  cbn [MarketRow.trend MarketRow.rsi MarketRow.volatility MarketRow.day_change sample_summary
       Summary.trend Summary.rsi Summary.volatility Summary.day_change_pct
       trading_config_init max_volatility rsi_oversold rsi_overbought].
  rewrite pydiv_ok by lra. cbn [bind].
  unfold gtb.
  rewrite (ltb_true 0 (expected_return _)) by exact Her.
  rewrite (ltb_false (expected_return _) 0) by lra.
  rewrite (ltb_false 50 30), (ltb_false 70 50) by lra.
  rewrite Hrr.
  rewrite (Rmin_left (2.25 * 10) 25) by lra.
  replace ((1 - 0.02 / 0.02) * 15) with 0 by lra.
  rewrite (Rmax_left 0 0) by lra.
  rewrite (Rabs_pos_eq 5), Rabs_R0 by lra.
  rewrite (Rmin_right (5 * 2) 10), (Rmin_left (0 * 2) 10) by lra.
  do 2 eexists. split; [reflexivity|]. split; [reflexivity|].
  cbn [opportunity_score].
  split; [rewrite Rmin_left by lra | rewrite Rmin_left by lra]; lra.
Qed.

(** ** [get_top_opportunities] *)

(** C3, as the claim has it, fails: with the two pairs of
    [sample_currency] loaded, EUR/GBP before EUR/USD, the operation
    returns EUR/USD (signal strength 52.5, opportunity score 22.5) before
    EUR/GBP (signal strength 22.5, opportunity score 62.5), so the result
    is not non-increasing in the opportunity score. *)
Lemma top_opportunities_not_sorted_by_score :
  market_data sample_processor = [sample_eur_gbp; sample_eur_usd]
  /\ get_top_opportunities sample_processor 1.5 = Ok [sample_eur_usd; sample_eur_gbp]
  /\ exists first second,
       analyze_row trading_config_init sample_eur_usd = Ok first
       /\ analyze_row trading_config_init sample_eur_gbp = Ok second
       /\ opportunity_score first < opportunity_score second.
Proof.
  split; [exact sample_market_data|].
  split.
  - unfold get_top_opportunities. rewrite sample_market_data.
    cbn [filter].
    unfold sample_eur_gbp at 1, sample_eur_usd at 1.
    rewrite !sample_risk_reward by reflexivity.
    rewrite (geb_true 2.25 1.5) by lra.
    cbn [sort_values_descending fold_right insert_descending].
    destruct sample_signal_strength as [Ha Hb].
    rewrite Ha, Hb. rewrite (geb_false 22.5 52.5) by lra.
    reflexivity.
  - destruct sample_opportunity_scores as (first & second & H1 & H2 & E1 & E2).
    exists first, second. repeat split; [exact H1 | exact H2 | lra].
Qed.

(** C3, amended.  When the processor holds a non-empty frame of market
    data, [get_top_opportunities] returns exactly the rows whose
    [risk_reward >= min_risk_reward], rearranged to be non-increasing in
    [signal_strength]. *)
Theorem top_opportunities_ranked (self : ForexDataProcessor) (min_risk_reward : R) :
  market_data self <> [] ->
  exists opportunities,
    get_top_opportunities self min_risk_reward = Ok opportunities
    /\ Permutation opportunities
         (filter (fun row => MarketRow.risk_reward row >=? min_risk_reward) (market_data self))
    /\ (forall row, In row opportunities <->
                    In row (market_data self) /\ min_risk_reward <= MarketRow.risk_reward row)
    /\ descending MarketRow.signal_strength opportunities.
Proof.
  intros Hne. unfold get_top_opportunities.
  destruct (market_data self) as [|row0 rows]; [contradiction|].
  eexists. split; [reflexivity|].
  pose proof (sort_values_descending_perm MarketRow.signal_strength
                (filter (fun row => MarketRow.risk_reward row >=? min_risk_reward)
                        (row0 :: rows))) as Hperm.
  split; [exact Hperm|]. split.
  - intros row. split.
    + intros H. apply (Permutation_in _ Hperm) in H.
      apply filter_In in H as [Hin Hge]. split; [exact Hin|].
      unfold geb in Hge. destruct (Rle_dec _ _); [assumption | discriminate].
    + intros [Hin Hge]. apply (Permutation_in _ (Permutation_sym Hperm)).
      apply filter_In. split; [exact Hin | now apply geb_true].
  - apply sort_values_descending_sorted.
Qed.

Lemma top_opportunities_ranked_witness :
  exists opportunities,
    get_top_opportunities sample_processor 1.5 = Ok opportunities
    /\ Permutation opportunities
         (filter (fun row => MarketRow.risk_reward row >=? 1.5) (market_data sample_processor))
    /\ (forall row, In row opportunities <->
                    In row (market_data sample_processor) /\ 1.5 <= MarketRow.risk_reward row)
    /\ descending MarketRow.signal_strength opportunities.
Proof.
  apply (top_opportunities_ranked sample_processor 1.5).
  rewrite sample_market_data. discriminate.
Defined.

(** On the processor as [__init__] leaves it the frame is empty, the
    loaded frame is dropped and the column lookup raises. *)
Lemma top_opportunities_initial (currency_wrapper : CurrencyWrapper) (min_risk_reward : R) :
  get_top_opportunities (ForexDataProcessor_init currency_wrapper) min_risk_reward
  = Raise KeyError.
Proof. reflexivity. Qed.

(** ** [analyze_opportunities] *)

Lemma analyze_rows_rows (trading_config : TradingConfig) (rows : list MarketRow.t)
    (opportunities : list Opportunity) :
  analyze_rows trading_config rows = Ok opportunities ->
  map opportunity_row opportunities = rows.
Proof.
  revert opportunities. induction rows as [|row rest IH]; intros opportunities; simpl.
  - intros [= <-]. reflexivity.
  - unfold analyze_row.
    destruct (_calculate_position_parameters _ _ _) as [p|]; [|discriminate].
    cbn [bind].
    destruct (_calculate_opportunity_score _ _ _) as [score|]; [|discriminate].
    cbn [bind].
    destruct (analyze_rows trading_config rest) as [others|]; [|discriminate].
    cbn [bind]. intros [= <-]. simpl. f_equal. now apply IH.
Qed.

Lemma analyze_rows_ok (trading_config : TradingConfig) (rows : list MarketRow.t) :
  max_volatility trading_config <> 0 ->
  Forall (fun row => MarketRow.volatility row <> 0 /\ MarketRow.current_rate row <> 0) rows ->
  exists opportunities, analyze_rows trading_config rows = Ok opportunities.
Proof.
  intros Hmax. induction 1 as [|row rest [Hv Hp] _ [others IH]]; simpl.
  - now exists [].
  - unfold analyze_row. rewrite position_parameters_ok by assumption. cbn [bind].
    unfold _calculate_opportunity_score. rewrite pydiv_ok by assumption. cbn [bind].
    rewrite IH. cbn [bind]. eexists. reflexivity.
Qed.

(** X11.  On a non-empty frame whose rows have a rate and a volatility
    other than zero, the cache written by [analyze_opportunities] holds
    every row of the market data once, in non-increasing order of the
    opportunity score; no row is dropped for its risk/reward ratio. *)
Lemma analyze_opportunities_ranked (trading_config : TradingConfig)
    (market_data : list MarketRow.t) (cache : list Opportunity) :
  market_data <> [] ->
  max_volatility trading_config <> 0 ->
  Forall (fun row => MarketRow.volatility row <> 0 /\ MarketRow.current_rate row <> 0) market_data ->
  exists opportunities,
    analyze_opportunities trading_config market_data cache = Ok opportunities
    /\ Permutation (map opportunity_row opportunities) market_data
    /\ descending opportunity_score opportunities.
Proof.
  intros Hne Hmax Hrows. unfold analyze_opportunities.
  destruct (analyze_rows_ok trading_config market_data Hmax Hrows) as [others Hok].
  destruct market_data as [|row rest]; [contradiction|].
  rewrite Hok. cbn [bind]. eexists. split; [reflexivity|]. split.
  - rewrite <- (analyze_rows_rows _ _ _ Hok).
    apply Permutation_map, sort_values_descending_perm.
  - apply sort_values_descending_sorted.
Qed.

(** * The RSI *)

(** ** Last entries of series *)

Lemma iloc_last_snoc {A : Type} (s : list A) (a : A) : iloc_last (s ++ [a]) = Ok a.
Proof. unfold iloc_last. rewrite rev_unit. reflexivity. Qed.

Lemma iloc_last_inv {A : Type} (s : list A) (a : A) :
  iloc_last s = Ok a -> exists s', s = s' ++ [a].
Proof.
  unfold iloc_last. destruct (rev s) as [|b r] eqn:E; [discriminate|].
  intros [= ->]. exists (rev r).
  rewrite <- (rev_involutive s), E. reflexivity.
Qed.

Lemma iloc_last_map {A B : Type} (f : A -> B) (s : list A) (a : A) :
  iloc_last s = Ok a -> iloc_last (map f s) = Ok (f a).
Proof.
  intros H. apply iloc_last_inv in H as [s' ->].
  rewrite map_app. apply iloc_last_snoc.
Qed.

Lemma map2_snoc {A B C : Type} (f : A -> B -> C) (s1 : list A) (s2 : list B) (a : A) (b : B) :
  length s1 = length s2 ->
  map2 f (s1 ++ [a]) (s2 ++ [b]) = map2 f s1 s2 ++ [f a b].
Proof.
  revert s2. induction s1 as [|x r1 IH]; intros [|y r2] Hlen; simpl in *;
    try discriminate; [reflexivity|].
  f_equal. apply IH. now injection Hlen.
Qed.

Lemma iloc_last_map2 {A B C : Type} (f : A -> B -> C) (s1 : list A) (s2 : list B) (a : A) (b : B) :
  length s1 = length s2 ->
  iloc_last s1 = Ok a -> iloc_last s2 = Ok b ->
  iloc_last (map2 f s1 s2) = Ok (f a b).
Proof.
  intros Hlen H1 H2.
  apply iloc_last_inv in H1 as [r1 ->]. apply iloc_last_inv in H2 as [r2 ->].
  rewrite !length_app in Hlen; simpl in Hlen.
  rewrite map2_snoc by lia. apply iloc_last_snoc.
Qed.

Lemma rolling_mean_length (window : nat) (s : list npfloat) :
  length (rolling_mean window s) = length s.
Proof. unfold rolling_mean. now rewrite length_map, length_seq. Qed.

Lemma rolling_mean_last (window : nat) (s : list npfloat) :
  s <> [] -> iloc_last (rolling_mean window s) = Ok (window_mean window s).
Proof.
  intros Hne. unfold rolling_mean.
  destruct (length s) as [|n] eqn:E.
  - destruct s; [contradiction | discriminate].
  - rewrite seq_S, map_app. cbn [map]. rewrite iloc_last_snoc.
    rewrite Nat.add_0_l, <- E, firstn_all. reflexivity.
Qed.

Lemma differences_length (previous : R) (values : list R) :
  length (differences previous values) = length values.
Proof.
  revert previous. induction values as [|x rest IH]; intros previous; simpl;
    [reflexivity | now rewrite IH].
Qed.

Lemma diff_length (close : list R) : length (diff close) = length close.
Proof. destruct close; simpl; [reflexivity | now rewrite differences_length]. Qed.

Lemma window_mean_short (window : nat) (s : list npfloat) :
  (length s < window)%nat -> window_mean window s = NaN.
Proof.
  intros H. unfold window_mean.
  apply Nat.ltb_lt in H. rewrite H. reflexivity.
Qed.

(** ** The reported value, from the last average gain and loss *)

Lemma gain_last (close : list R) :
  close <> [] -> iloc_last (gain close) = Ok (avg_gain close).
Proof.
  intros Hne. unfold gain, avg_gain. apply rolling_mean_last.
  intros E. apply (f_equal (@length _)) in E.
  unfold where_ in E. rewrite length_map, diff_length in E.
  destruct close; [contradiction | discriminate].
Qed.

Lemma loss_last (close : list R) :
  close <> [] -> iloc_last (loss close) = Ok (avg_loss close).
Proof.
  intros Hne. unfold loss, avg_loss. apply rolling_mean_last.
  intros E. apply (f_equal (@length _)) in E.
  unfold where_ in E. rewrite !length_map, diff_length in E.
  destruct close; [contradiction | discriminate].
Qed.

Lemma rsi_last (close : list R) :
  close <> [] ->
  iloc_last (rsi close) = Ok (rsi_entry (avg_gain close) (avg_loss close)).
Proof.
  intros Hne. unfold rsi, fillna.
  apply (iloc_last_map (fsub (Fin 100))).
  apply (iloc_last_map (fun a => if isnan a then Fin 50 else a)).
  apply (iloc_last_map (fdiv (Fin 100))).
  apply (iloc_last_map (fadd (Fin 1))).
  apply iloc_last_map2; [|now apply gain_last | now apply loss_last].
  unfold gain, loss, where_.
  now rewrite !rolling_mean_length, !length_map.
Qed.

Lemma summary_rsi_eq (close : list R) :
  close <> [] ->
  summary_rsi close
  = Ok (let last_rsi := rsi_entry (avg_gain close) (avg_loss close) in
        if isnan last_rsi then Fin 50 else last_rsi).
Proof.
  intros Hne. unfold summary_rsi, rsi_value.
  destruct close as [|c rest]; [contradiction|].
  rewrite rsi_last by assumption. cbn [bind].
  destruct (isnan _); [|reflexivity].
  do 2 f_equal. lra.
Qed.

Lemma rsi_entry_undefined (g l : npfloat) :
  isnan (rsi_quotient g l) = true -> rsi_entry g l = Fin 50.
Proof.
  intros H. unfold rsi_entry. rewrite H.
  unfold fsub, fneg, fadd. f_equal. lra.
Qed.

Lemma rsi_entry_flat : rsi_entry (Fin 0) (Fin 0) = Fin 50.
Proof.
  apply rsi_entry_undefined. unfold rsi_quotient, fdiv at 2.
  destruct (Req_dec_T 0 0); [|lra].
  rewrite (ltb_false 0 0) by lra. reflexivity.
Qed.

Lemma rsi_entry_no_loss (x : R) : 0 < x -> rsi_entry (Fin x) (Fin 0) = Fin 100.
Proof.
  intros Hx. unfold rsi_entry, rsi_quotient, fdiv at 2 4.
  destruct (Req_dec_T 0 0); [|lra].
  rewrite (ltb_true 0 x) by lra. simpl.
  unfold fsub, fneg, fadd. f_equal. lra.
Qed.

(** ** The sample series *)

(** Rewrites every comparison of the goal that [lra] decides. *)
Ltac decide_comparisons :=
  unfold gtb;
  repeat match goal with
         | |- context [ltb ?a ?b] =>
             first [rewrite (ltb_true a b) by lra | rewrite (ltb_false a b) by lra]
         end.

Lemma fdiv_by_14 (x : R) : fdiv (Fin x) (Fin (INR 14)) = Fin (x / 14).
Proof.
  assert (E : INR 14 = 14) by (simpl; lra).
  unfold fdiv. destruct (Req_dec_T (INR 14) 0); [lra|]. now rewrite E.
Qed.

Lemma rising_averages :
  avg_gain rising_close = Fin 1 /\ avg_loss rising_close = Fin 0.
Proof.
  unfold avg_gain, avg_loss, rising_close, window_mean, where_.
  cbn [diff differences map length Nat.ltb Nat.leb Nat.sub skipn fgt0 flt0].
  decide_comparisons.
  cbn [fneg fsum fold_right fadd].
  rewrite !fdiv_by_14. split; f_equal; lra.
Qed.

Lemma flat_averages :
  avg_gain flat_close = Fin 0 /\ avg_loss flat_close = Fin 0.
Proof.
  unfold avg_gain, avg_loss, flat_close, window_mean, where_.
  cbn [diff differences map length Nat.ltb Nat.leb Nat.sub skipn fgt0 flt0].
  decide_comparisons.
  cbn [fneg fsum fold_right fadd].
  rewrite !fdiv_by_14. split; f_equal; lra.
Qed.

Lemma short_averages (close : list R) :
  (length close < 14)%nat -> avg_gain close = NaN /\ avg_loss close = NaN.
Proof.
  intros H. unfold avg_gain, avg_loss, where_.
  split; apply window_mean_short; now rewrite !length_map, diff_length.
Qed.

(** ** The reported RSI *)

(** C6, as the claim has it, fails: on fifteen closes rising by one the
    14-period average loss is zero (and the average gain is one), and the
    reported RSI is 100, not 50. *)
Lemma rsi_of_rising_series :
  iloc_last (loss rising_close) = Ok (Fin 0)
  /\ iloc_last (gain rising_close) = Ok (Fin 1)
  /\ summary_rsi rising_close = Ok (Fin 100)
  /\ summary_rsi rising_close <> Ok (Fin 50).
Proof.
  destruct rising_averages as [Hg Hl].
  assert (Hne : rising_close <> []) by discriminate.
  assert (H : summary_rsi rising_close = Ok (Fin 100)).
  { rewrite summary_rsi_eq by exact Hne. cbv zeta.
    rewrite Hg, Hl, rsi_entry_no_loss by lra. reflexivity. }
  split; [rewrite loss_last by exact Hne; now rewrite Hl|].
  split; [rewrite gain_last by exact Hne; now rewrite Hg|].
  split; [exact H|].
  rewrite H. intros [= E]. lra.
Qed.

(** C6, amended.  On a frame with at least one bar the reported RSI is 50
    whenever [100 / (1 + avg_gain / avg_loss)] is undefined ([NaN]): when
    the frame has fewer than 14 bars, and when the average loss and the
    average gain are both zero.  When the average loss is zero and the
    average gain is positive the reported RSI is 100. *)
Theorem rsi_default (close : list R) :
  close <> [] ->
  exists g l,
    iloc_last (gain close) = Ok g /\ iloc_last (loss close) = Ok l
    /\ (isnan (rsi_quotient g l) = true -> summary_rsi close = Ok (Fin 50))
    /\ ((length close < 14)%nat -> summary_rsi close = Ok (Fin 50))
    /\ (l = Fin 0 -> g = Fin 0 -> summary_rsi close = Ok (Fin 50))
    /\ (l = Fin 0 -> forall x, g = Fin x -> 0 < x -> summary_rsi close = Ok (Fin 100)).
Proof.
  intros Hne. exists (avg_gain close), (avg_loss close).
  split; [now apply gain_last|]. split; [now apply loss_last|].
  rewrite summary_rsi_eq by exact Hne. cbv zeta.
  split; [|split; [|split]].
  - intros H. rewrite rsi_entry_undefined by exact H. reflexivity.
  - intros H. destruct (short_averages close H) as [-> ->].
    rewrite rsi_entry_undefined by reflexivity. reflexivity.
  - intros -> ->. rewrite rsi_entry_flat. reflexivity.
  - intros -> x -> Hx. rewrite rsi_entry_no_loss by exact Hx. reflexivity.
Qed.

Lemma rsi_default_witness :
  summary_rsi single_close = Ok (Fin 50)
  /\ summary_rsi flat_close = Ok (Fin 50)
  /\ summary_rsi rising_close = Ok (Fin 100).
Proof.
  split; [|split].
  - destruct (rsi_default single_close) as (g & l & _ & _ & _ & H & _);
      [discriminate|].
    apply H. simpl. lia.
  - destruct (rsi_default flat_close) as (g & l & Hg & Hl & _ & _ & H & _);
      [discriminate|].
    rewrite gain_last in Hg by discriminate. rewrite loss_last in Hl by discriminate.
    destruct flat_averages as [Eg El]. rewrite Eg in Hg. rewrite El in Hl.
    injection Hg as <-. injection Hl as <-. now apply H.
  - destruct (rsi_default rising_close) as (g & l & Hg & Hl & _ & _ & _ & H);
      [discriminate|].
    rewrite gain_last in Hg by discriminate. rewrite loss_last in Hl by discriminate.
    destruct rising_averages as [Eg El]. rewrite Eg in Hg. rewrite El in Hl.
    injection Hg as <-. injection Hl as <-. apply (H eq_refl 1 eq_refl). lra.
Defined.

(** * Further properties of the position sizer *)

Lemma currency_multipliers_bounds :
  Forall (fun kv => 1.2 <= stop (snd kv) <= 1.8 /\ 1.7 <= profit (snd kv) <= 2.5)
         currency_multipliers.
Proof.
  unfold currency_multipliers.
  repeat (apply Forall_cons; [simpl; lra|]). apply Forall_nil.
Qed.

Lemma multipliers_bounds (base_currency : string) :
  let mult := dict_get base_currency currency_multipliers default_multipliers in
  1.2 <= stop mult <= 1.8 /\ 1.7 <= profit mult <= 2.5.
Proof.
  apply (dict_get_Forall (fun m => 1.2 <= stop m <= 1.8 /\ 1.7 <= profit m <= 2.5)).
  - exact currency_multipliers_bounds.
  - simpl; lra.
Qed.

Lemma profit_mult_bounds (volatility : R) (base_currency : string) :
  1.53 <= profit_mult_of volatility base_currency <= 2.75.
Proof.
  unfold profit_mult_of.
  destruct (multipliers_bounds base_currency) as [_ Hp]. cbv zeta in Hp.
  cmp_cases.
Qed.

Lemma currency_adj_bounds (base_currency : string) :
  0.85 <= dict_get base_currency currency_volatility 1.0 <= 1.2.
Proof.
  apply (dict_get_Forall (fun c => 0.85 <= c <= 1.2)).
  - unfold currency_volatility.
    repeat (apply Forall_cons; [simpl; lra|]). apply Forall_nil.
  - lra.
Qed.

Lemma volatility_adjustment_bounds (volatility : R) :
  0.7 <= volatility_adjustment_of volatility <= 1.2.
Proof. unfold volatility_adjustment_of. cmp_cases. Qed.

(** In the two upper volatility bands the daily-range term of [max] is
    the larger one for every currency. *)
Lemma dynamic_stop_upper_bands (volatility atr : R) (base_currency : string) :
  0 <= atr -> 0.005 <= volatility ->
  fst (_calculate_dynamic_distances volatility atr (atr * sqrt 252) base_currency)
  = atr * sqrt 252 * (if volatility <? 0.01 then 0.15 else 0.2).
Proof.
  intros Hatr Hv. unfold _calculate_dynamic_distances.
  destruct (multipliers_bounds base_currency) as [Hs _]. cbv zeta in Hs.
  set (mult := dict_get base_currency currency_multipliers default_multipliers) in *.
  pose proof sqrt_252_bounds as Hq.
  rewrite (ltb_false volatility 0.005) by lra.
  destruct (volatility <? 0.01); cbn [fst]; apply Rmax_right; nra.
Qed.

(** X1.  The risk/reward ratio does not depend on the price: it is the
    profit multiplier of the currency scaled by the volatility band, and
    lies between 1.53 and 2.75. *)
Theorem risk_reward_price_independent
    (base_currency : string) (price1 price2 volatility : R) :
  0 < price1 -> 0 < price2 -> 0 < volatility ->
  exists p1 p2,
    _calculate_position_parameters base_currency price1 volatility = Ok p1
    /\ _calculate_position_parameters base_currency price2 volatility = Ok p2
    /\ risk_reward p1 = risk_reward p2
    /\ risk_reward p1
       = profit (dict_get base_currency currency_multipliers default_multipliers)
         * (if volatility <? 0.005 then 1.1 else if volatility <? 0.01 then 1 else 0.9)
    /\ 1.53 <= risk_reward p1 <= 2.75.
Proof.
  intros H1 H2 Hv.
  exists (position_record base_currency price1 volatility),
         (position_record base_currency price2 volatility).
  split; [apply position_parameters_ok; lra|].
  split; [apply position_parameters_ok; lra|].
  rewrite !risk_reward_of_record by lra.
  split; [reflexivity|]. split.
  - unfold profit_mult_of.
    destruct (volatility <? 0.005); [|destruct (volatility <? 0.01)]; lra.
  - apply profit_mult_bounds.
Qed.

Lemma risk_reward_price_independent_witness :
  exists p1 p2,
    _calculate_position_parameters "EUR" 1.1 0.004 = Ok p1
    /\ _calculate_position_parameters "EUR" 150 0.004 = Ok p2
    /\ risk_reward p1 = risk_reward p2
    /\ risk_reward p1
       = profit (dict_get "EUR" currency_multipliers default_multipliers)
         * (if 0.004 <? 0.005 then 1.1 else if 0.004 <? 0.01 then 1 else 0.9)
    /\ 1.53 <= risk_reward p1 <= 2.75.
Proof. apply (risk_reward_price_independent "EUR" 1.1 150 0.004); lra. Defined.

(** X2.  The confidence score saturates: for a positive price and a
    volatility in (0, 1] it is exactly 100. *)
Theorem confidence_saturated
    (base_currency : string) (current_price volatility : R) :
  0 < current_price -> 0 < volatility <= 1 ->
  exists p,
    _calculate_position_parameters base_currency current_price volatility = Ok p
    /\ confidence p = 100.
Proof.
  intros Hp [Hv Hv1].
  exists (position_record base_currency current_price volatility).
  split; [apply position_parameters_ok; lra|].
  pose proof (risk_reward_of_record base_currency current_price volatility) as Hrr.
  unfold position_record in *; cbn [confidence risk_reward] in *.
  rewrite Hrr by lra.
  pose proof (profit_mult_bounds volatility base_currency) as Hpm.
  pose proof (base_lot_positive base_currency) as Hlot.
  pose proof (currency_adj_bounds base_currency) as Hadj.
  pose proof (volatility_adjustment_bounds volatility) as Hva.
  set (lot := base_lot _) in *. set (adj := dict_get _ currency_volatility _) in *.
  set (va := volatility_adjustment_of _) in *.
  replace (lot * va * adj / lot) with (va * adj) by (field; lra).
  assert (Hinv : 1 <= 1 / volatility).
  { apply (Rmult_le_reg_r volatility); [lra|].
    replace (1 / volatility * volatility) with 1 by (field; lra). lra. }
  apply Rmin_right. nra.
Qed.

Lemma confidence_saturated_witness :
  exists p,
    _calculate_position_parameters "JPY" 150 0.02 = Ok p /\ confidence p = 100.
Proof. apply (confidence_saturated "JPY" 150 0.02); lra. Defined.

(** X3.  For a positive price and a positive volatility the expected
    return is strictly positive, whatever the currency. *)
Theorem expected_return_positive
    (base_currency : string) (current_price volatility : R) :
  0 < current_price -> 0 < volatility ->
  exists p,
    _calculate_position_parameters base_currency current_price volatility = Ok p
    /\ 0 < expected_return p.
Proof.
  intros Hp Hv.
  exists (position_record base_currency current_price volatility).
  split; [apply position_parameters_ok; lra|].
  rewrite expected_return_of_record.
  pose proof (risk_amount_of_record_positive base_currency _ _ Hp Hv) as Hrisk.
  rewrite risk_reward_of_record by lra.
  pose proof (profit_mult_bounds volatility base_currency) as Hpm.
  apply Rmult_lt_0_compat; lra.
Qed.

Lemma expected_return_positive_witness :
  exists p,
    _calculate_position_parameters "TRY" 30 0.05 = Ok p /\ 0 < expected_return p.
Proof. apply (expected_return_positive "TRY" 30 0.05); lra. Defined.

(** X4.  From a volatility of 0.005 on, the stop distance is the
    daily-range term, [volatility * price * sqrt 252] times 0.15 (below
    0.01) or 0.2: the stop multiplier of the currency plays no part. *)
Theorem stop_distance_upper_bands
    (base_currency : string) (current_price volatility : R) :
  0 < current_price -> 0.005 <= volatility ->
  exists p,
    _calculate_position_parameters base_currency current_price volatility = Ok p
    /\ entry_price p - stop_loss p
       = volatility * current_price * sqrt 252
         * (if volatility <? 0.01 then 0.15 else 0.2).
Proof.
  intros Hp Hv.
  exists (position_record base_currency current_price volatility).
  split; [apply position_parameters_ok; lra|].
  unfold position_record; cbn [entry_price stop_loss].
  rewrite dynamic_stop_upper_bands by nra. lra.
Qed.

Lemma stop_distance_upper_bands_witness :
  exists p,
    _calculate_position_parameters "RUB" 90 0.02 = Ok p
    /\ entry_price p - stop_loss p
       = 0.02 * 90 * sqrt 252 * (if 0.02 <? 0.01 then 0.15 else 0.2).
Proof. apply (stop_distance_upper_bands "RUB" 90 0.02); lra. Defined.

(** X5.  From a volatility of 0.01 on, the stop loss is a positive
    price exactly when [volatility * 0.2 * sqrt 252 < 1], that is below a
    volatility of about 0.315. *)
Theorem stop_loss_positive_iff
    (base_currency : string) (current_price volatility : R) :
  0 < current_price -> 0.01 <= volatility ->
  exists p,
    _calculate_position_parameters base_currency current_price volatility = Ok p
    /\ (0 < stop_loss p <-> volatility * 0.2 * sqrt 252 < 1).
Proof.
  intros Hp Hv.
  exists (position_record base_currency current_price volatility).
  split; [apply position_parameters_ok; lra|].
  unfold position_record; cbn [stop_loss].
  rewrite dynamic_stop_upper_bands by nra.
  rewrite (ltb_false volatility 0.01) by lra.
  pose proof sqrt_252_bounds as Hq.
  set (s := sqrt 252) in *.
  split; intros H; nra.
Qed.

Lemma stop_loss_positive_iff_witness :
  exists p,
    _calculate_position_parameters "EUR" 1.1 0.4 = Ok p
    /\ (0 < stop_loss p <-> 0.4 * 0.2 * sqrt 252 < 1).
Proof. apply (stop_loss_positive_iff "EUR" 1.1 0.4); lra. Defined.

(** X6.  For a volatility of at most 0.0005 the stop distance is below
    a thousandth of the price, so the second scale-in entry
    ([entry_scale_2], 0.1 percent under the price) lies below the stop
    loss. *)
Theorem scale_in_entry_below_stop
    (base_currency : string) (current_price volatility : R) :
  0 < current_price -> 0 < volatility <= 0.0005 ->
  exists p,
    _calculate_position_parameters base_currency current_price volatility = Ok p
    /\ entry_scale_2 p < stop_loss p < entry_price p.
Proof.
  intros Hp [Hv Hv1].
  exists (position_record base_currency current_price volatility).
  split; [apply position_parameters_ok; lra|].
  assert (Hatr : 0 < volatility * current_price) by nra.
  pose proof (dynamic_stop_positive volatility _ base_currency Hatr) as Hpos.
  unfold position_record; cbn [entry_scale_2 stop_loss entry_price].
  split; [|lra].
  assert (Hsd : fst (_calculate_dynamic_distances volatility (volatility * current_price)
                       (volatility * current_price * sqrt 252) base_currency)
                <= volatility * current_price * 1.8).
  { unfold _calculate_dynamic_distances.
    destruct (multipliers_bounds base_currency) as [Hs _]. cbv zeta in Hs.
    set (mult := dict_get base_currency currency_multipliers default_multipliers) in *.
    pose proof sqrt_252_bounds as Hq.
    rewrite (ltb_true volatility 0.005) by lra. cbn [fst].
    apply Rmax_lub; nra. }
  nra.
Qed.

Lemma scale_in_entry_below_stop_witness :
  exists p,
    _calculate_position_parameters "EUR" 1.1 0.0004 = Ok p
    /\ entry_scale_2 p < stop_loss p < entry_price p.
Proof. apply (scale_in_entry_below_stop "EUR" 1.1 0.0004); lra. Defined.

(** * The signal strength *)

(** X7.  For a risk/reward ratio above zero the signal strength lies in
    (0, 100]: at most 30 for the agreement of trend and MACD, 25 for the
    RSI, 25 for the risk/reward ratio and 20 for the volatility. *)
Theorem signal_strength_bounded (summary : Summary.t) (pos_params : PositionParameters) :
  0 < risk_reward pos_params ->
  0 < _calculate_signal_strength summary pos_params <= 100.
Proof.
  intros Hrr. unfold _calculate_signal_strength.
  pose proof (rr_score_positive _ Hrr) as H1.
  pose proof (Rmin_r (risk_reward pos_params * 10) 25) as H2.
  set (rr_score := Rmin _ 25) in *.
  set (vol_score := (1 - Summary.volatility summary / 0.02) * 20).
  pose proof (Rmax_r (Rmin vol_score 20) 0) as H3.
  assert (H4 : Rmax (Rmin vol_score 20) 0 <= 20)
    by (apply Rmax_lub; [apply Rmin_r | lra]).
  destruct (Summary.trend summary), (Summary.macd_signal summary);
    cmp_cases.
Qed.

Lemma signal_strength_bounded_witness :
  0 < _calculate_signal_strength (sample_summary Bearish 0) sample_trade_params <= 100.
Proof. apply signal_strength_bounded. simpl. lra. Defined.

(** * Scaling and monotonicity of the position sizer *)

Lemma volatility_adjustment_antitone (v1 v2 : R) :
  v1 <= v2 -> volatility_adjustment_of v2 <= volatility_adjustment_of v1.
Proof. intros H. unfold volatility_adjustment_of. cmp_cases. Qed.

Lemma dynamic_stop_scale (volatility atr k : R) (base_currency : string) :
  0 <= k ->
  fst (_calculate_dynamic_distances volatility (k * atr) (k * atr * sqrt 252) base_currency)
  = k * fst (_calculate_dynamic_distances volatility atr (atr * sqrt 252) base_currency).
Proof.
  intros Hk. unfold _calculate_dynamic_distances.
  set (mult := dict_get base_currency currency_multipliers default_multipliers).
  destruct (volatility <? 0.005); [|destruct (volatility <? 0.01)]; cbn [fst];
    rewrite <- RmaxRmult by exact Hk; f_equal; ring.
Qed.

(** X24.  The position size does not depend on the price and does not
    grow with the volatility: at a higher volatility the size is at most
    the size at a lower one, and it stays positive. *)
Theorem position_size_antitone
    (base_currency : string) (price1 price2 volatility1 volatility2 : R) :
  0 < price1 -> 0 < price2 -> 0 < volatility1 <= volatility2 ->
  exists p1 p2,
    _calculate_position_parameters base_currency price1 volatility1 = Ok p1
    /\ _calculate_position_parameters base_currency price2 volatility2 = Ok p2
    /\ 0 < position_size p2 <= position_size p1.
Proof.
  intros H1 H2 [Hv1 Hv].
  exists (position_record base_currency price1 volatility1),
         (position_record base_currency price2 volatility2).
  split; [apply position_parameters_ok; lra|].
  split; [apply position_parameters_ok; lra|].
  unfold position_record; cbn [position_size].
  pose proof (base_lot_positive base_currency) as Hlot.
  pose proof (currency_adj_positive base_currency) as Hadj.
  pose proof (volatility_adjustment_positive volatility2) as Hva.
  pose proof (volatility_adjustment_antitone _ _ Hv) as Hanti.
  set (lot := base_lot _) in *. set (adj := dict_get _ currency_volatility _) in *.
  split; [repeat apply Rmult_lt_0_compat; assumption|].
  apply Rmult_le_compat_r; [lra|]. apply Rmult_le_compat_l; lra.
Qed.

Lemma position_size_antitone_witness :
  exists p1 p2,
    _calculate_position_parameters "GBP" 1.25 0.003 = Ok p1
    /\ _calculate_position_parameters "GBP" 1.27 0.02 = Ok p2
    /\ 0 < position_size p2 <= position_size p1.
Proof. apply (position_size_antitone "GBP" 1.25 1.27 0.003 0.02); lra. Defined.

(** X25.  The levels scale with the price: multiplying the price by a
    factor [k > 0] at the same volatility multiplies the stop loss, the
    take profit and the risk amount by [k] and leaves the position size
    and the risk/reward ratio as they are. *)
Theorem levels_scale_with_price
    (base_currency : string) (current_price volatility k : R) :
  0 < current_price -> 0 < volatility -> 0 < k ->
  exists p pk,
    _calculate_position_parameters base_currency current_price volatility = Ok p
    /\ _calculate_position_parameters base_currency (k * current_price) volatility = Ok pk
    /\ stop_loss pk = k * stop_loss p
    /\ take_profit pk = k * take_profit p
    /\ risk_amount pk = k * risk_amount p
    /\ position_size pk = position_size p
    /\ risk_reward pk = risk_reward p.
Proof.
  intros Hp Hv Hk.
  assert (Hkp : 0 < k * current_price) by (apply Rmult_lt_0_compat; assumption).
  exists (position_record base_currency current_price volatility),
         (position_record base_currency (k * current_price) volatility).
  split; [apply position_parameters_ok; lra|].
  split; [apply position_parameters_ok; lra|].
  pose proof (risk_reward_of_record base_currency current_price volatility) as Hrr.
  pose proof (risk_reward_of_record base_currency (k * current_price) volatility) as Hrrk.
  rewrite Hrr, Hrrk by lra.
  unfold position_record;
    cbn [stop_loss take_profit risk_amount position_size].
  rewrite !dynamic_distances_profit.
  replace (volatility * (k * current_price)) with (k * (volatility * current_price)) by ring.
  rewrite dynamic_stop_scale by lra.
  repeat split; ring.
Qed.

Lemma levels_scale_with_price_witness :
  exists p pk,
    _calculate_position_parameters "JPY" 1.5 0.006 = Ok p
    /\ _calculate_position_parameters "JPY" (100 * 1.5) 0.006 = Ok pk
    /\ stop_loss pk = 100 * stop_loss p
    /\ take_profit pk = 100 * take_profit p
    /\ risk_amount pk = 100 * risk_amount p
    /\ position_size pk = position_size p
    /\ risk_reward pk = risk_reward p.
Proof. apply (levels_scale_with_price "JPY" 1.5 0.006 100); lra. Defined.

(** * Further properties of loading and ranking *)

Lemma market_row_inv (currency : CurrencyWrapper) (pair : string) (row : MarketRow.t) :
  market_row currency pair = Ok row ->
  exists base quote summary,
    get_summary currency pair = Ok summary
    /\ split "/" pair = [base; quote]
    /\ Summary.volatility summary <> 0 /\ Summary.current_rate summary <> 0
    /\ row = row_record pair base quote summary.
Proof.
  unfold market_row.
  destruct (get_summary currency pair) as [summary|]; [|discriminate]. cbn [bind].
  destruct (split "/" pair) as [|base [|quote [|extra rest]]]; try discriminate.
  destruct (_calculate_position_parameters _ _ _) as [p|] eqn:E; [|discriminate].
  apply position_parameters_inv in E as (Hv & Hp & ->).
  cbn [bind]. intros [= <-].
  exists base, quote, summary. repeat split; assumption.
Qed.

Lemma load_market_data_In (self : ForexDataProcessor) (row : MarketRow.t) :
  In row (load_market_data self) ->
  exists pair base quote summary,
    In pair (get_available_pairs (currency self))
    /\ get_summary (currency self) pair = Ok summary
    /\ split "/" pair = [base; quote]
    /\ Summary.volatility summary <> 0 /\ Summary.current_rate summary <> 0
    /\ row = row_record pair base quote summary.
Proof.
  unfold load_market_data. intros H. apply in_flat_map in H as (pair & Hpair & H).
  destruct (market_row (currency self) pair) as [row'|] eqn:E; [|contradiction].
  destruct H as [<-|[]].
  apply market_row_inv in E as (base & quote & summary & H).
  exists pair, base, quote, summary. tauto.
Qed.

Lemma market_row_loadable (currency : CurrencyWrapper) (pair : string) :
  positive_summaries currency ->
  if loadable currency pair
  then exists row, market_row currency pair = Ok row /\ MarketRow.pair row = pair
  else exists e, market_row currency pair = Raise e.
Proof.
  intros Hpos. unfold loadable.
  destruct (get_summary currency pair) as [summary|e] eqn:Es.
  - destruct (Hpos _ _ Es) as [Hp Hv].
    destruct (split "/" pair) as [|base [|quote [|extra rest]]] eqn:E; cbn [length Nat.eqb].
    + exists ValueError. unfold market_row. now rewrite Es, E.
    + exists ValueError. unfold market_row. now rewrite Es, E.
    + exists (row_record pair base quote summary).
      split; [apply market_row_ok; auto; lra | reflexivity].
    + exists ValueError. unfold market_row. now rewrite Es, E.
  - exists e. unfold market_row. now rewrite Es.
Qed.

Lemma sample_currency_positive : positive_summaries sample_currency.
Proof.
  intros pair summary. unfold sample_currency; cbn [get_summary].
  destruct (String.eqb pair "EUR/GBP"); [intros [= <-]; simpl; lra|].
  destruct (String.eqb pair "EUR/USD"); [intros [= <-]; simpl; lra|].
  discriminate.
Qed.

Lemma filter_all {A : Type} (f : A -> bool) (l : list A) :
  (forall x, In x l -> f x = true) -> filter f l = l.
Proof.
  induction l as [|a rest IH]; intros H; cbn [filter]; [reflexivity|].
  rewrite (H a) by now left. f_equal. apply IH. intros x Hx. apply H. now right.
Qed.

(** X8.  [load_market_data] keeps the pairs in the order of the
    universe and drops exactly those whose summary raises or whose name
    does not split at ["/"] into two parts, when the summaries have a
    positive rate and volatility: one failing pair never removes
    another. *)
Theorem load_market_data_pairs (self : ForexDataProcessor) :
  positive_summaries (currency self) ->
  map MarketRow.pair (load_market_data self)
  = filter (loadable (currency self)) (get_available_pairs (currency self)).
Proof.
  intros Hpos. unfold load_market_data.
  induction (get_available_pairs (currency self)) as [|pair rest IH];
    [reflexivity|].
  cbn [flat_map filter]. rewrite map_app, IH.
  pose proof (market_row_loadable (currency self) pair Hpos) as H.
  destruct (loadable (currency self) pair).
  - destruct H as (row & -> & Hrow). cbn [map app]. now rewrite Hrow.
  - destruct H as (e & ->). reflexivity.
Qed.

Lemma load_market_data_pairs_witness :
  map MarketRow.pair (load_market_data sample_processor)
  = filter (loadable (currency sample_processor))
           (get_available_pairs (currency sample_processor)).
Proof. apply load_market_data_pairs. exact sample_currency_positive. Defined.

(** X9.  Every row loaded from summaries with a positive rate and
    volatility has its base and quote currency from the pair name, levels
    with [stop_loss < entry_price < take_profit] around the current rate,
    a risk/reward ratio between 1.53 and 2.75 and a positive expected
    return. *)
Theorem loaded_rows_sound (self : ForexDataProcessor) (row : MarketRow.t) :
  positive_summaries (currency self) ->
  In row (load_market_data self) ->
  In (MarketRow.pair row) (get_available_pairs (currency self))
  /\ split "/" (MarketRow.pair row)
     = [MarketRow.base_currency row; MarketRow.quote_currency row]
  /\ MarketRow.entry_price row = MarketRow.current_rate row
  /\ MarketRow.stop_loss row < MarketRow.entry_price row < MarketRow.take_profit row
  /\ 1.53 <= MarketRow.risk_reward row <= 2.75
  /\ 0 < MarketRow.expected_return row.
Proof.
  intros Hpos Hin.
  apply load_market_data_In in Hin
    as (pair & base & quote & summary & Hpair & Hs & Hsplit & _ & _ & ->).
  destruct (Hpos _ _ Hs) as [Hp Hv].
  assert (Hrr : risk_reward (position_record base (Summary.current_rate summary)
                               (Summary.volatility summary))
                = profit_mult_of (Summary.volatility summary) base)
    by (apply risk_reward_of_record; lra).
  pose proof (profit_mult_bounds (Summary.volatility summary) base) as Hpm.
  unfold row_record;
    cbn [MarketRow.pair MarketRow.base_currency MarketRow.quote_currency
         MarketRow.entry_price MarketRow.current_rate MarketRow.stop_loss
         MarketRow.take_profit MarketRow.risk_reward MarketRow.expected_return].
  split; [exact Hpair|]. split; [exact Hsplit|]. split; [reflexivity|].
  split.
  { unfold position_record; cbn [stop_loss entry_price take_profit].
    assert (Hatr : 0 < Summary.volatility summary * Summary.current_rate summary) by nra.
    pose proof (dynamic_stop_positive (Summary.volatility summary) _ base Hatr) as Hsd.
    pose proof (profit_mult_positive (Summary.volatility summary) base) as Hpos'.
    rewrite dynamic_distances_profit. nra. }
  split; [rewrite Hrr; exact Hpm|].
  rewrite expected_return_of_record, Hrr.
  pose proof (risk_amount_of_record_positive base _ _ Hp Hv).
  apply Rmult_lt_0_compat; lra.
Qed.

Lemma loaded_rows_sound_witness :
  In (MarketRow.pair sample_eur_gbp) (get_available_pairs (currency sample_processor))
  /\ split "/" (MarketRow.pair sample_eur_gbp)
     = [MarketRow.base_currency sample_eur_gbp; MarketRow.quote_currency sample_eur_gbp]
  /\ MarketRow.entry_price sample_eur_gbp = MarketRow.current_rate sample_eur_gbp
  /\ MarketRow.stop_loss sample_eur_gbp < MarketRow.entry_price sample_eur_gbp
     < MarketRow.take_profit sample_eur_gbp
  /\ 1.53 <= MarketRow.risk_reward sample_eur_gbp <= 2.75
  /\ 0 < MarketRow.expected_return sample_eur_gbp.
Proof.
  apply (loaded_rows_sound sample_processor sample_eur_gbp).
  - exact sample_currency_positive.
  - change (load_market_data sample_processor) with (market_data sample_processor).
    rewrite sample_market_data. now left.
Defined.

(** The [__main__] block of the processor module fails on every
    currency wrapper: the loaded frame is kept in [data] only, the
    processor's own frame stays empty and its column lookup raises
    [KeyError]. *)
Theorem processor_main_raises (currency_wrapper : CurrencyWrapper) :
  processor_main currency_wrapper = Raise KeyError
  /\ market_data (ForexDataProcessor_init currency_wrapper) = [].
Proof. split; reflexivity. Qed.

(** * Further properties of the dashboard *)

Lemma opportunity_score_range
    (trading_config : TradingConfig) (row : MarketRow.t)
    (trade_params : PositionParameters) (score : R) :
  _calculate_opportunity_score trading_config row trade_params = Ok score ->
  0 < risk_reward trade_params ->
  0 < score <= 100.
Proof.
  unfold _calculate_opportunity_score.
  destruct (pydiv _ _) as [vol_ratio|]; [|discriminate]. cbn [bind].
  intros [= <-] Hrr.
  split; [|apply Rmin_r].
  apply Rmin_glb_lt; [|lra].
  pose proof (rr_score_positive _ Hrr).
  pose proof (momentum_score_nonneg (MarketRow.day_change row)).
  pose proof (Rmax_r ((1 - vol_ratio) * 15) 0).
  destruct (MarketRow.trend row);
    destruct (expected_return trade_params >? 0);
    destruct (expected_return trade_params <? 0);
    destruct (MarketRow.rsi row <? rsi_oversold trading_config);
    destruct (MarketRow.rsi row >? rsi_overbought trading_config); lra.
Qed.

Lemma analyze_row_ok (trading_config : TradingConfig) (row : MarketRow.t) :
  max_volatility trading_config <> 0 ->
  MarketRow.volatility row <> 0 -> MarketRow.current_rate row <> 0 ->
  exists score,
    _calculate_opportunity_score trading_config row
      (position_record (MarketRow.base_currency row) (MarketRow.current_rate row)
                       (MarketRow.volatility row)) = Ok score
    /\ analyze_row trading_config row
       = Ok {| opportunity_row := row;
               opportunity_params :=
                 position_record (MarketRow.base_currency row)
                   (MarketRow.current_rate row) (MarketRow.volatility row);
               opportunity_score := score |}.
Proof.
  intros Hmax Hv Hp. unfold analyze_row.
  rewrite position_parameters_ok by assumption. cbn [bind].
  unfold _calculate_opportunity_score. rewrite pydiv_ok by assumption. cbn [bind].
  eexists. split; reflexivity.
Qed.

Lemma analyze_rows_In (trading_config : TradingConfig) (rows : list MarketRow.t)
    (opportunities : list Opportunity) (o : Opportunity) :
  analyze_rows trading_config rows = Ok opportunities ->
  In o opportunities ->
  In (opportunity_row o) rows /\ analyze_row trading_config (opportunity_row o) = Ok o.
Proof.
  revert opportunities. induction rows as [|row rest IH]; intros opportunities; simpl.
  - intros [= <-] [].
  - destruct (analyze_row trading_config row) as [first|] eqn:E; [|discriminate].
    cbn [bind].
    destruct (analyze_rows trading_config rest) as [others|]; [|discriminate].
    cbn [bind]. intros [= <-] [<-|Hin].
    + assert (Hrow : opportunity_row first = row).
      { unfold analyze_row in E.
        destruct (_calculate_position_parameters _ _ _); [|discriminate].
        cbn [bind] in E.
        destruct (_calculate_opportunity_score _ _ _); [|discriminate].
        cbn [bind] in E. now injection E as <-. }
      rewrite Hrow. split; [now left | exact E].
    + destruct (IH others eq_refl Hin) as [H1 H2]. split; [now right | exact H2].
Qed.

Lemma loaded_rows_nonzero (self : ForexDataProcessor) :
  positive_summaries (currency self) ->
  Forall (fun row => 0 < MarketRow.volatility row /\ 0 < MarketRow.current_rate row)
         (load_market_data self).
Proof.
  intros Hpos. apply Forall_forall. intros row Hin.
  apply load_market_data_In in Hin
    as (pair & base & quote & summary & _ & Hs & _ & _ & _ & ->).
  destruct (Hpos _ _ Hs). unfold row_record; cbn [MarketRow.volatility
    MarketRow.current_rate]. tauto.
Qed.

Lemma analyze_opportunities_ranked_witness :
  exists opportunities,
    analyze_opportunities trading_config_init (market_data sample_processor) []
    = Ok opportunities
    /\ Permutation (map opportunity_row opportunities) (market_data sample_processor)
    /\ descending opportunity_score opportunities.
Proof.
  apply (analyze_opportunities_ranked trading_config_init).
  - rewrite sample_market_data. discriminate.
  - simpl. lra.
  - rewrite sample_market_data.
    repeat (apply Forall_cons; [simpl; lra|]). apply Forall_nil.
Defined.

(** X12.  Constructing the dashboard over a currency wrapper whose
    summaries have a positive rate and volatility never fails: the cache
    holds every loaded row once, in non-increasing order of the
    opportunity score, and every score lies in (0, 100]. *)
Theorem dashboard_init_ranked (currency_wrapper : CurrencyWrapper) :
  positive_summaries currency_wrapper ->
  exists dashboard,
    MarketOpportunityDashboard_init currency_wrapper = Ok dashboard
    /\ dashboard_market_data dashboard
       = load_market_data (ForexDataProcessor_init currency_wrapper)
    /\ Permutation (map opportunity_row (opportunity_cache dashboard))
                   (dashboard_market_data dashboard)
    /\ descending opportunity_score (opportunity_cache dashboard)
    /\ Forall (fun o => 0 < opportunity_score o <= 100) (opportunity_cache dashboard).
Proof.
  intros Hpos. unfold MarketOpportunityDashboard_init.
  set (rows := load_market_data (ForexDataProcessor_init currency_wrapper)).
  pose proof (loaded_rows_nonzero (ForexDataProcessor_init currency_wrapper) Hpos) as Hrows.
  fold rows in Hrows.
  assert (Hnz : Forall (fun row => MarketRow.volatility row <> 0
                                   /\ MarketRow.current_rate row <> 0) rows).
  { eapply Forall_impl; [|exact Hrows]. cbv beta. intros row [? ?]. split; lra. }
  assert (Hmax : max_volatility trading_config_init <> 0) by (simpl; lra).
  destruct (analyze_rows_ok trading_config_init rows Hmax Hnz) as [others Hok].
  unfold analyze_opportunities.
  destruct rows as [|row rest] eqn:E.
  - cbn [bind]. eexists. split; [reflexivity|].
    cbn [dashboard_market_data opportunity_cache].
    repeat split; constructor.
  - rewrite Hok. cbn [bind]. eexists. split; [reflexivity|].
    cbn [dashboard_market_data opportunity_cache].
    split; [reflexivity|]. split.
    { rewrite <- (analyze_rows_rows _ _ _ Hok).
      apply Permutation_map, sort_values_descending_perm. }
    split; [apply sort_values_descending_sorted|].
    apply Forall_forall. intros o Ho.
    apply (Permutation_in _ (sort_values_descending_perm opportunity_score others)) in Ho.
    destruct (analyze_rows_In _ _ _ _ Hok Ho) as [Hin Ho'].
    rewrite Forall_forall in Hrows. destruct (Hrows _ Hin) as [Hv Hp].
    unfold analyze_row in Ho'.
    rewrite position_parameters_ok in Ho' by lra. cbn [bind] in Ho'.
    destruct (_calculate_opportunity_score _ _ _) as [score|] eqn:Es; [|discriminate].
    cbn [bind] in Ho'. injection Ho' as <-. cbn [opportunity_score].
    apply (opportunity_score_range _ _ _ _ Es).
    rewrite risk_reward_of_record by lra.
    pose proof (profit_mult_bounds (MarketRow.volatility (opportunity_row o))
                  (MarketRow.base_currency (opportunity_row o))). lra.
Qed.

Lemma dashboard_init_ranked_witness :
  exists dashboard,
    MarketOpportunityDashboard_init sample_currency = Ok dashboard
    /\ dashboard_market_data dashboard
       = load_market_data (ForexDataProcessor_init sample_currency)
    /\ Permutation (map opportunity_row (opportunity_cache dashboard))
                   (dashboard_market_data dashboard)
    /\ descending opportunity_score (opportunity_cache dashboard)
    /\ Forall (fun o => 0 < opportunity_score o <= 100) (opportunity_cache dashboard).
Proof. apply dashboard_init_ranked. exact sample_currency_positive. Defined.

(** X13.  With the expected return always positive, the trend term of
    the score is given to bullish rows only: for a row with a positive
    rate and volatility, a bearish trend scores below 70 (never a
    "strong" opportunity, never styled green) and a bullish trend scores
    at least 45.3. *)
Theorem bearish_never_strong (trading_config : TradingConfig) (row : MarketRow.t) :
  0 < max_volatility trading_config ->
  0 < MarketRow.current_rate row -> 0 < MarketRow.volatility row ->
  exists o,
    analyze_row trading_config row = Ok o
    /\ (MarketRow.trend row = Bearish ->
        opportunity_score o < 70 /\ score_style (opportunity_score o) <> green)
    /\ (MarketRow.trend row = Bullish -> 45.3 <= opportunity_score o).
Proof.
  intros Hmax Hp Hv.
  set (params := position_record (MarketRow.base_currency row)
                   (MarketRow.current_rate row) (MarketRow.volatility row)).
  assert (Hrr : 1.53 <= risk_reward params <= 2.75).
  { unfold params. rewrite risk_reward_of_record by lra. apply profit_mult_bounds. }
  assert (Her : 0 < expected_return params).
  { unfold params in *. rewrite expected_return_of_record. cbv zeta.
    pose proof (risk_amount_of_record_positive (MarketRow.base_currency row) _ _ Hp Hv).
    apply Rmult_lt_0_compat; lra. }
  unfold analyze_row. rewrite position_parameters_ok by lra. cbn [bind]. fold params.
  unfold _calculate_opportunity_score. rewrite pydiv_ok by lra. cbn [bind].
  eexists. split; [reflexivity|]. cbn [opportunity_score].
  unfold gtb. rewrite (ltb_true 0 (expected_return params)) by exact Her.
  rewrite (ltb_false (expected_return params) 0) by lra.
  pose proof (Rmin_l (risk_reward params * 10) 25) as H1.
  pose proof (Rmin_r (risk_reward params * 10) 25) as H2.
  assert (H3 : 15.3 <= Rmin (risk_reward params * 10) 25) by (apply Rmin_glb; lra).
  set (rr_score := Rmin (risk_reward params * 10) 25) in *.
  assert (Hratio : 0 < MarketRow.volatility row / max_volatility trading_config)
    by (apply Rdiv_lt_0_compat; assumption).
  set (vol_score := (1 - MarketRow.volatility row / max_volatility trading_config) * 15).
  assert (H4 : 0 <= Rmax vol_score 0 < 15).
  { split; [apply Rmax_r|]. apply Rmax_lub_lt; unfold vol_score; lra. }
  pose proof (momentum_score_nonneg (MarketRow.day_change row)) as H5.
  pose proof (Rmin_r (Rabs (MarketRow.day_change row) * 2) 10) as H6.
  split.
  - intros ->.
    match goal with |- ?score < 70 /\ _ => assert (Hs : score < 70) end.
    { eapply Rle_lt_trans; [apply Rmin_l|].
      destruct (ltb _ _); lra. }
    split; [exact Hs|].
    unfold score_style. rewrite geb_false by exact Hs.
    destruct (_ >=? 50); discriminate.
  - intros ->. apply Rmin_glb; [|lra].
    destruct (_ <? _); lra.
Qed.

Lemma bearish_never_strong_witness :
  exists o,
    analyze_row trading_config_init sample_eur_usd = Ok o
    /\ (MarketRow.trend sample_eur_usd = Bearish ->
        opportunity_score o < 70 /\ score_style (opportunity_score o) <> green)
    /\ (MarketRow.trend sample_eur_usd = Bullish -> 45.3 <= opportunity_score o).
Proof. apply (bearish_never_strong trading_config_init sample_eur_usd); simpl; lra. Defined.

(** X14.  For a row loaded from summaries with a positive rate and
    volatility, the position parameters computed again by
    [analyze_opportunities] are the ones stored in the row, so merging
    [trade_params] over the row changes none of its columns. *)
Theorem analyze_row_recomputes
    (self : ForexDataProcessor) (trading_config : TradingConfig) (row : MarketRow.t) :
  positive_summaries (currency self) ->
  max_volatility trading_config <> 0 ->
  In row (load_market_data self) ->
  exists o,
    analyze_row trading_config row = Ok o
    /\ opportunity_row o = row
    /\ position_size (opportunity_params o) = MarketRow.position_size row
    /\ entry_price (opportunity_params o) = MarketRow.entry_price row
    /\ take_profit (opportunity_params o) = MarketRow.take_profit row
    /\ stop_loss (opportunity_params o) = MarketRow.stop_loss row
    /\ risk_reward (opportunity_params o) = MarketRow.risk_reward row
    /\ expected_return (opportunity_params o) = MarketRow.expected_return row.
Proof.
  intros Hpos Hmax Hin.
  apply load_market_data_In in Hin
    as (pair & base & quote & summary & _ & Hs & _ & _ & _ & ->).
  destruct (Hpos _ _ Hs) as [Hp Hv].
  destruct (analyze_row_ok trading_config (row_record pair base quote summary))
    as (score & _ & ->); try assumption.
  - unfold row_record; cbn [MarketRow.volatility]. lra.
  - unfold row_record; cbn [MarketRow.current_rate]. lra.
  - eexists. split; [reflexivity|]. repeat split.
Qed.

Lemma analyze_row_recomputes_witness :
  exists o,
    analyze_row trading_config_init sample_eur_gbp = Ok o
    /\ opportunity_row o = sample_eur_gbp
    /\ position_size (opportunity_params o) = MarketRow.position_size sample_eur_gbp
    /\ entry_price (opportunity_params o) = MarketRow.entry_price sample_eur_gbp
    /\ take_profit (opportunity_params o) = MarketRow.take_profit sample_eur_gbp
    /\ stop_loss (opportunity_params o) = MarketRow.stop_loss sample_eur_gbp
    /\ risk_reward (opportunity_params o) = MarketRow.risk_reward sample_eur_gbp
    /\ expected_return (opportunity_params o) = MarketRow.expected_return sample_eur_gbp.
Proof.
  apply (analyze_row_recomputes sample_processor trading_config_init sample_eur_gbp).
  - exact sample_currency_positive.
  - simpl. lra.
  - change (load_market_data sample_processor) with (market_data sample_processor).
    rewrite sample_market_data. now left.
Defined.

(** X15.  The header statistics count a score of exactly 70 twice: the
    number of strong opportunities ([>= 70]) plus the number of moderate
    ones ([between(50, 70)], both ends included) is the number of scores
    of at least 50 plus the number of scores equal to 70. *)
Theorem market_stats_double_count (df : list Opportunity) :
  (strong_opps df + moderate_opps df
   = length (filter (fun o => opportunity_score o >=? 50) df)
     + length (filter (fun o => Reqb (opportunity_score o) 70) df))%nat.
Proof.
  unfold strong_opps, moderate_opps.
  induction df as [|o rest IH]; [reflexivity|].
  cbn [filter]. unfold leb, geb, Reqb in *.
  destruct (Rle_dec 70 (opportunity_score o)), (Rle_dec 50 (opportunity_score o)),
    (Rle_dec (opportunity_score o) 70), (Req_dec_T (opportunity_score o) 70);
    try lra; cbn [andb length]; lia.
Qed.

(** * Symbols *)

Lemma endswith_append (suffix s : string) : endswith suffix (String.append s suffix) = true.
Proof.
  induction s as [|c rest IH]; simpl.
  - destruct suffix; simpl; [reflexivity|]. now rewrite Ascii.eqb_refl, String.eqb_refl.
  - rewrite IH. apply orb_true_r.
Qed.

Lemma endswith_inv (suffix s : string) :
  endswith suffix s = true -> exists t, s = String.append t suffix.
Proof.
  induction s as [|c rest IH]; cbn [endswith].
  - rewrite orb_false_r. intros H. apply String.eqb_eq in H as <-. now exists "".
  - intros H. apply orb_true_iff in H as [H|H].
    + apply String.eqb_eq in H as <-. now exists "".
    + destruct (IH H) as [t ->]. now exists (String c t).
Qed.

Lemma remove_char_append (c : ascii) (s t : string) :
  remove_char c (String.append s t) = String.append (remove_char c s) (remove_char c t).
Proof.
  induction s as [|a rest IH]; simpl; [reflexivity|].
  destruct (Ascii.eqb a c); simpl; now rewrite IH.
Qed.

Lemma contains_slash_false (s : string) :
  contains "/" s = false -> remove_char "/" s = s.
Proof.
  unfold contains. induction s as [|a rest IH]; [reflexivity|].
  cbn [String.index String.prefix remove_char].
  destruct (ascii_dec "/" a) as [<-|Hne].
  - destruct rest; discriminate.
  - destruct (Ascii.eqb_spec a "/") as [->|_]; [contradiction|].
    destruct (String.index 0 "/" rest); [discriminate|].
    intros _. f_equal. now apply IH.
Qed.

Lemma contains_slash_removed (s : string) : contains "/" (remove_char "/" s) = false.
Proof.
  unfold contains. induction s as [|a rest IH]; [reflexivity|].
  cbn [remove_char]. destruct (Ascii.eqb_spec a "/") as [->|Hne]; [exact IH|].
  cbn [String.index String.prefix].
  destruct (ascii_dec "/" a) as [<-|_]; [contradiction|].
  destruct (String.index 0 "/" (remove_char "/" rest)); [discriminate | reflexivity].
Qed.

(** X16.  [format_symbol] always returns a symbol that ends with
    ["=X"], and formatting a formatted symbol changes nothing. *)
Theorem format_symbol_idempotent (symbol : string) :
  endswith "=X" (format_symbol symbol) = true
  /\ format_symbol (format_symbol symbol) = format_symbol symbol.
Proof.
  assert (H : endswith "=X" (format_symbol symbol) = true).
  { unfold format_symbol.
    destruct (endswith "=X" symbol) eqn:E; [exact E|].
    destruct (contains "/" symbol); apply endswith_append. }
  split; [exact H|].
  unfold format_symbol at 1. now rewrite H.
Qed.

(** X17.  A symbol is fetched under the same ticker with or without
    its slashes: when the symbol without slashes does not end with
    ["=X"], [format_symbol] maps the symbol and the symbol without
    slashes to that one followed by ["=X"], and [fetch_currency_rate]
    returns the same for both. *)
Theorem format_symbol_slashes (history : TickerHistory) (symbol : string) :
  endswith "=X" (remove_char "/" symbol) = false ->
  format_symbol symbol = String.append (remove_char "/" symbol) "=X"
  /\ format_symbol (remove_char "/" symbol) = format_symbol symbol
  /\ fetch_currency_rate history (remove_char "/" symbol)
     = fetch_currency_rate history symbol.
Proof.
  intros Hend.
  assert (Hs : endswith "=X" symbol = false).
  { destruct (endswith "=X" symbol) eqn:E; [|reflexivity].
    apply endswith_inv in E as [t ->].
    rewrite remove_char_append in Hend. cbn [remove_char Ascii.eqb Bool.eqb] in Hend.
    now rewrite endswith_append in Hend. }
  assert (H1 : format_symbol symbol = String.append (remove_char "/" symbol) "=X").
  { unfold format_symbol. rewrite Hs.
    destruct (contains "/" symbol) eqn:E; [reflexivity|].
    now rewrite contains_slash_false. }
  assert (H2 : format_symbol (remove_char "/" symbol) = format_symbol symbol).
  { rewrite H1. unfold format_symbol.
    now rewrite Hend, contains_slash_removed. }
  split; [exact H1|]. split; [exact H2|].
  unfold fetch_currency_rate. now rewrite H2.
Qed.

Lemma format_symbol_slashes_witness :
  format_symbol "EUR/USD" = String.append (remove_char "/" "EUR/USD") "=X"
  /\ format_symbol (remove_char "/" "EUR/USD") = format_symbol "EUR/USD"
  /\ fetch_currency_rate (fun _ => Ok [1.1]) (remove_char "/" "EUR/USD")
     = fetch_currency_rate (fun _ => Ok [1.1]) "EUR/USD".
Proof. apply (format_symbol_slashes (fun _ => Ok [1.1]) "EUR/USD"). reflexivity. Defined.

(** * Further properties of the indicators *)

Lemma fsum_nonneg (s : list npfloat) : Forall nonneg_fin s -> nonneg_fin (fsum s).
Proof.
  induction 1 as [|a rest (x & -> & Hx) _ (t & IH & Ht)]; unfold fsum; cbn [fold_right].
  - exists 0. split; [reflexivity | lra].
  - fold (fsum rest). rewrite IH. exists (x + t). split; [reflexivity | lra].
Qed.

Lemma Forall_skipn {A : Type} (P : A -> Prop) (n : nat) (l : list A) :
  Forall P l -> Forall P (skipn n l).
Proof.
  intros H. rewrite <- (firstn_skipn n l) in H. now apply Forall_app in H.
Qed.

Lemma INR_positive (n : nat) : (0 < n)%nat -> 0 < INR n.
Proof. intros H. apply lt_0_INR. exact H. Qed.

Lemma fdiv_fin (x y : R) : y <> 0 -> fdiv (Fin x) (Fin y) = Fin (x / y).
Proof. intros H. unfold fdiv. destruct (Req_dec_T y 0); [contradiction | reflexivity]. Qed.

Lemma window_mean_nonneg (window : nat) (s : list npfloat) :
  (0 < window)%nat -> Forall nonneg_fin s ->
  ((length s < window)%nat /\ window_mean window s = NaN)
  \/ ((window <= length s)%nat /\ nonneg_fin (window_mean window s)).
Proof.
  intros Hw Hs. unfold window_mean.
  destruct (Nat.ltb_spec (length s) window) as [Hlt|Hge]; [left; tauto|].
  right. split; [exact Hge|].
  destruct (fsum_nonneg _ (Forall_skipn _ (length s - window) _ Hs)) as (t & -> & Ht).
  pose proof (INR_positive window Hw) as Hpos.
  rewrite fdiv_fin by lra. exists (t / INR window). split; [reflexivity|].
  apply Rmult_le_pos; [exact Ht|]. left. now apply Rinv_0_lt_compat.
Qed.

Lemma differences_fin (previous : R) (values : list R) :
  Forall fin_or_nan (differences previous values).
Proof.
  revert previous. induction values as [|x rest IH]; intros previous; cbn [differences];
    constructor; [right; eexists; reflexivity | apply IH].
Qed.

Lemma diff_fin (close : list R) : Forall fin_or_nan (diff close).
Proof.
  destruct close as [|x rest]; cbn [diff]; constructor;
    [now left | apply differences_fin].
Qed.

Lemma gain_inputs_nonneg (s : list npfloat) :
  Forall fin_or_nan s -> Forall nonneg_fin (where_ fgt0 (Fin 0) s).
Proof.
  unfold where_. induction 1 as [|a rest Ha _ IH]; cbn [map]; constructor; [|exact IH].
  destruct Ha as [->|[x ->]]; cbn [fgt0].
  - exists 0. split; [reflexivity | lra].
  - unfold gtb, ltb. destruct (Rlt_dec 0 x).
    + exists x. split; [reflexivity | lra].
    + exists 0. split; [reflexivity | lra].
Qed.

Lemma loss_inputs_nonneg (s : list npfloat) :
  Forall fin_or_nan s -> Forall nonneg_fin (map fneg (where_ flt0 (Fin 0) s)).
Proof.
  unfold where_. induction 1 as [|a rest Ha _ IH]; cbn [map]; constructor; [|exact IH].
  destruct Ha as [->|[x ->]]; cbn [flt0].
  - exists (- 0). split; [reflexivity | lra].
  - unfold ltb. destruct (Rlt_dec x 0).
    + exists (- x). split; [reflexivity | lra].
    + exists (- 0). split; [reflexivity | lra].
Qed.

Lemma rsi_entry_range (g l : R) :
  0 <= g -> 0 <= l ->
  exists r, rsi_entry (Fin g) (Fin l) = Fin r /\ 0 <= r <= 100.
Proof.
  intros Hg Hl.
  destruct (Req_dec_T l 0) as [->|Hl0].
  - destruct (Req_dec_T g 0) as [->|Hg0].
    + exists 50. split; [apply rsi_entry_flat | lra].
    + exists 100. split; [apply rsi_entry_no_loss; lra | lra].
  - assert (Hq : 0 <= g / l) by (apply Rmult_le_pos; [lra | left; apply Rinv_0_lt_compat; lra]).
    unfold rsi_entry, rsi_quotient.
    rewrite (fdiv_fin g l) by exact Hl0. cbn [fadd].
    rewrite fdiv_fin by lra. cbn [isnan fsub fneg fadd].
    eexists. split; [reflexivity|].
    assert (H : 0 < 100 / (1 + g / l) <= 100).
    { split.
      - apply Rdiv_lt_0_compat; lra.
      - apply (Rmult_le_reg_r (1 + g / l)); [lra|].
        replace (100 / (1 + g / l) * (1 + g / l)) with 100 by (field; lra). nra. }
    lra.
Qed.

(** X18.  On every frame with at least one bar the reported RSI is a
    finite number between 0 and 100. *)
Theorem rsi_in_range (close : list R) :
  close <> [] ->
  exists r, summary_rsi close = Ok (Fin r) /\ 0 <= r <= 100.
Proof.
  intros Hne. rewrite summary_rsi_eq by exact Hne. cbv zeta.
  pose proof (diff_fin close) as Hd.
  assert (H14 : (0 < 14)%nat) by lia.
  destruct (window_mean_nonneg 14 _ H14 (gain_inputs_nonneg _ Hd))
    as [[Hlen Hg]|[Hlen (g & Hg & Hg0)]];
    destruct (window_mean_nonneg 14 _ H14 (loss_inputs_nonneg _ Hd))
      as [[Hlen' Hl]|[Hlen' (l & Hl & Hl0)]];
    unfold where_ in Hlen, Hlen'; repeat rewrite length_map in Hlen;
    repeat rewrite length_map in Hlen'; try lia.
  - unfold avg_gain, avg_loss. rewrite Hg, Hl.
    rewrite rsi_entry_undefined by reflexivity. exists 50. split; [reflexivity | lra].
  - unfold avg_gain, avg_loss. rewrite Hg, Hl.
    destruct (rsi_entry_range g l Hg0 Hl0) as (r & -> & Hr).
    exists r. split; [reflexivity | exact Hr].
Qed.

Lemma rsi_in_range_witness :
  exists r, summary_rsi rising_close = Ok (Fin r) /\ 0 <= r <= 100.
Proof. apply rsi_in_range. discriminate. Defined.

Lemma fgt_nan_r (a : npfloat) : fgt a NaN = false.
Proof. destruct a; reflexivity. Qed.

Lemma map_Fin_nonempty (close : list R) : close <> [] -> map Fin close <> [].
Proof. destruct close; [contradiction | discriminate]. Qed.

(** X19.  On a frame with fewer than 50 bars the 50-bar mean is [NaN],
    the comparison with it is false and the trend is "Bearish", whatever
    the closes. *)
Theorem trend_bearish_below_50_bars (close : list R) :
  close <> [] -> (length close < 50)%nat ->
  summary_trend close = Ok Bearish.
Proof.
  intros Hne Hlen. unfold summary_trend.
  destruct close as [|c rest]; [contradiction|].
  rewrite !rolling_mean_last by (apply map_Fin_nonempty; exact Hne).
  rewrite (window_mean_short 50) by (rewrite length_map; exact Hlen).
  now rewrite fgt_nan_r.
Qed.

Lemma trend_bearish_below_50_bars_witness : summary_trend rising_close = Ok Bearish.
Proof. apply trend_bearish_below_50_bars; [discriminate | simpl; lia]. Defined.

(** ** The volatility *)

Lemma fsum_nan (s : list npfloat) : In NaN s -> fsum s = NaN.
Proof.
  unfold fsum. induction s as [|a rest IH]; [intros []|].
  cbn [fold_right]. intros [->|H]; [reflexivity|].
  rewrite (IH H). destruct a; reflexivity.
Qed.

Lemma fsum_fin_inv (s : list npfloat) (t : R) :
  fsum s = Fin t -> Forall (fun a => exists x, a = Fin x) s.
Proof.
  unfold fsum. revert t. induction s as [|a rest IH]; intros t; [constructor|].
  cbn [fold_right]. destruct a as [x| | |]; destruct (fold_right fadd (Fin 0) rest) eqn:E;
    try discriminate.
  intros _. constructor; [eexists; reflexivity | eapply IH; reflexivity].
Qed.

Lemma fsum_pinf_inv (s : list npfloat) : fsum s = PInf -> In PInf s.
Proof.
  unfold fsum. induction s as [|a rest IH]; [discriminate|].
  cbn [fold_right]. destruct a as [x| | |]; destruct (fold_right fadd (Fin 0) rest) eqn:E;
    try discriminate; intros _; try (now left); right; now apply IH.
Qed.

Lemma fsum_ninf_inv (s : list npfloat) : fsum s = NInf -> In NInf s.
Proof.
  unfold fsum. induction s as [|a rest IH]; [discriminate|].
  cbn [fold_right]. destruct a as [x| | |]; destruct (fold_right fadd (Fin 0) rest) eqn:E;
    try discriminate; intros _; try (now left); right; now apply IH.
Qed.

(** The sample standard deviation is [NaN] or a finite number that is
    not negative. *)
Lemma std_nan_or_nonneg (s : list npfloat) : std s = NaN \/ nonneg_fin (std s).
Proof.
  unfold std. destruct (Nat.leb_spec (length s) 1) as [Hle|Hgt]; [now left|].
  cbv zeta.
  assert (Hn : 0 < INR (length s)) by (apply INR_positive; lia).
  assert (Hn1 : 0 < INR (length s - 1)) by (apply INR_positive; lia).
  set (sqr := fun avg => map (fun a => fmul (fsub avg a) (fsub avg a)) s).
  assert (Hnan : forall avg a, In a s -> fsub avg a = NaN -> fsum (sqr avg) = NaN).
  { intros avg a Hin Ha. apply fsum_nan. unfold sqr.
    apply in_map_iff. exists a. split; [now rewrite Ha | exact Hin]. }
  destruct (fsum s) as [t| | |] eqn:E.
  - right. rewrite fdiv_fin by lra.
    assert (Hsqr : Forall nonneg_fin (sqr (Fin (t / INR (length s))))).
    { unfold sqr. apply Forall_forall. intros b Hb.
      apply in_map_iff in Hb as (a & <- & Ha).
      pose proof (fsum_fin_inv _ _ E) as Hfin. rewrite Forall_forall in Hfin.
      destruct (Hfin a Ha) as [x ->]. cbn [fsub fneg fadd fmul].
      eexists. split; [reflexivity|].
      match goal with |- 0 <= ?d * ?d => apply (Rle_0_sqr d) end. }
    fold (sqr (Fin (t / INR (length s)))).
    destruct (fsum_nonneg _ Hsqr) as (u & -> & Hu).
    rewrite fdiv_fin by lra.
    assert (Hq : 0 <= u / INR (length s - 1))
      by (apply Rmult_le_pos; [lra | left; now apply Rinv_0_lt_compat]).
    cbn [fsqrt]. rewrite ltb_false by lra.
    eexists. split; [reflexivity | apply sqrt_pos].
  - left. cbn [fdiv]. rewrite ltb_false by lra.
    fold (sqr PInf). rewrite (Hnan PInf PInf); [reflexivity | | reflexivity].
    now apply fsum_pinf_inv.
  - left. cbn [fdiv]. rewrite ltb_false by lra.
    fold (sqr NInf). rewrite (Hnan NInf NInf); [reflexivity | | reflexivity].
    now apply fsum_ninf_inv.
  - left. cbn [fdiv]. fold (sqr NaN).
    destruct s as [|a rest]; [simpl in Hgt; lia|].
    rewrite (Hnan NaN a); [reflexivity | now left | reflexivity].
Qed.

Lemma dropna_length (s : list npfloat) : (length (dropna s) <= length s)%nat.
Proof. unfold dropna. apply filter_length_le. Qed.

Lemma relative_changes_length (previous : R) (values : list R) :
  length (relative_changes previous values) = length values.
Proof.
  revert previous. induction values as [|x rest IH]; intros previous; simpl;
    [reflexivity | now rewrite IH].
Qed.

Lemma returns_length (close : list R) :
  (length (dropna (pct_change close)) <= length close - 1)%nat.
Proof.
  destruct close as [|x rest]; [simpl; lia|].
  cbn [pct_change]. unfold dropna. cbn [filter isnan negb]. fold (dropna (relative_changes x rest)).
  pose proof (dropna_length (relative_changes x rest)) as H.
  rewrite relative_changes_length in H. simpl. lia.
Qed.

(** X20.  On every frame with at least one bar the reported volatility
    is a finite number that is not negative, and it is 0 on a frame with
    fewer than three bars. *)
Theorem volatility_nonneg (close : list R) :
  close <> [] ->
  exists v,
    summary_volatility close = Ok (Fin v)
    /\ 0 <= v
    /\ ((length close < 3)%nat -> v = 0).
Proof.
  intros Hne. unfold summary_volatility.
  destruct close as [|c rest] eqn:Ec; [contradiction|]. rewrite <- Ec.
  pose proof (returns_length close) as Hlen.
  set (returns := dropna (pct_change close)) in *.
  pose proof sqrt_252_bounds as Hq.
  destruct (Nat.ltb_spec 0 (length returns)) as [Hpos|Hzero].
  - destruct (std_nan_or_nonneg returns) as [Hstd|(u & Hstd & Hu)].
    + rewrite Hstd. cbn [fmul isnan]. exists 0.0.
      split; [reflexivity|]. split; lra.
    + assert (Hshort : (length close < 3)%nat -> False).
      { intros H. unfold std in Hstd.
        destruct (Nat.leb_spec (length returns) 1); [discriminate | lia]. }
      rewrite Hstd. cbn [fmul isnan]. exists (u * sqrt 252).
      split; [reflexivity|]. split; [nra | intros H; destruct (Hshort H)].
  - cbn [isnan]. exists 0.0. split; [reflexivity|]. split; lra.
Qed.

Lemma volatility_nonneg_witness :
  exists v,
    summary_volatility single_close = Ok (Fin v)
    /\ 0 <= v
    /\ ((length single_close < 3)%nat -> v = 0).
Proof. apply volatility_nonneg. discriminate. Defined.

(** * A flat market *)

Lemma repeat_nonempty {A : Type} (a : A) (n : nat) : (0 < n)%nat -> repeat a n <> [].
Proof. destruct n; [lia | discriminate]. Qed.

Lemma summary_trend_eq (close : list R) :
  close <> [] ->
  summary_trend close
  = match iloc_last (rolling_mean 20 (map Fin close)),
          iloc_last (rolling_mean 50 (map Fin close)) with
    | Ok last_20, Ok last_50 => Ok (if fgt last_20 last_50 then Bullish else Bearish)
    | _, _ => Raise Exception
    end.
Proof. destruct close; [contradiction | reflexivity]. Qed.

Lemma summary_macd_signal_eq (close : list R) :
  close <> [] ->
  summary_macd_signal close
  = match iloc_last (map2 Rminus (ewm_mean 12 close) (ewm_mean 26 close)),
          iloc_last (ewm_mean 9 (map2 Rminus (ewm_mean 12 close) (ewm_mean 26 close))) with
    | Ok macd_last, Ok signal_last => Ok (if macd_last >? signal_last then Buy else Sell)
    | _, _ => Raise Exception
    end.
Proof. destruct close; [contradiction | reflexivity]. Qed.

Lemma summary_day_change_eq (close : list R) (current_price : R) :
  iloc_last close = Ok current_price ->
  summary_day_change close
  = Ok (fmul (fsub (fdiv (Fin current_price)
                         (Fin (if (1 <? length close)%nat
                               then nth (length close - 2) close current_price
                               else current_price)))
                   (Fin 1)) (Fin 100)).
Proof.
  intros H. unfold summary_day_change.
  destruct close; [discriminate|]. now rewrite H.
Qed.

Lemma iloc_last_repeat {A : Type} (a : A) (n : nat) : iloc_last (repeat a (S n)) = Ok a.
Proof. unfold iloc_last. now rewrite rev_repeat. Qed.

Lemma fsum_zero (s : list npfloat) : Forall zero_fin s -> zero_fin (fsum s).
Proof.
  induction 1 as [|a rest (x & -> & Hx) _ (t & IH & Ht)]; unfold fsum; cbn [fold_right].
  - exists 0. split; reflexivity.
  - fold (fsum rest). rewrite IH. exists (x + t). split; [reflexivity | lra].
Qed.

Lemma window_mean_zero (window : nat) (s : list npfloat) :
  (0 < window)%nat -> Forall zero_fin s ->
  ((length s < window)%nat /\ window_mean window s = NaN)
  \/ ((window <= length s)%nat /\ window_mean window s = Fin 0).
Proof.
  intros Hw Hs. unfold window_mean.
  destruct (Nat.ltb_spec (length s) window) as [Hlt|Hge]; [left; tauto|].
  right. split; [exact Hge|].
  destruct (fsum_zero _ (Forall_skipn _ (length s - window) _ Hs)) as (t & -> & ->).
  pose proof (INR_positive window Hw) as Hpos.
  rewrite fdiv_fin by lra. f_equal. unfold Rdiv. apply Rmult_0_l.
Qed.

Lemma differences_flat (x : R) (n : nat) :
  Forall zero_fin (differences x (repeat x n)).
Proof.
  induction n as [|n IH]; cbn [repeat differences]; constructor; [|exact IH].
  exists (x - x). split; [reflexivity | lra].
Qed.

Lemma where_zero (cond : npfloat -> bool) (s : list npfloat) :
  Forall (fun a => a = NaN \/ zero_fin a) s ->
  (forall a, zero_fin a -> cond a = false) -> cond NaN = false ->
  where_ cond (Fin 0) s = map (fun _ => Fin 0) s.
Proof.
  intros Hs Hzero Hnan. unfold where_. apply map_ext_in. intros a Ha.
  rewrite Forall_forall in Hs. destruct (Hs a Ha) as [->|Hz].
  - now rewrite Hnan.
  - now rewrite (Hzero a Hz).
Qed.

Lemma diff_flat (x : R) (n : nat) :
  Forall (fun a => a = NaN \/ zero_fin a) (diff (repeat x n)).
Proof.
  destruct n as [|n]; cbn [repeat diff]; constructor; [now left|].
  eapply Forall_impl; [|apply differences_flat]. cbv beta. tauto.
Qed.

Lemma flat_rsi (x : R) (n : nat) :
  (0 < n)%nat -> summary_rsi (repeat x n) = Ok (Fin 50).
Proof.
  intros Hn.
  assert (Hne : repeat x n <> []) by (destruct n; [lia | discriminate]).
  rewrite summary_rsi_eq by exact Hne. cbv zeta.
  unfold avg_gain, avg_loss.
  rewrite (where_zero fgt0), (where_zero flt0); try apply diff_flat; try reflexivity.
  2: { intros a (z & -> & ->). cbn [flt0]. apply ltb_false. lra. }
  2: { intros a (z & -> & ->). cbn [fgt0]. unfold gtb. apply ltb_false. lra. }
  rewrite map_map.
  set (d := diff (repeat x n)).
  assert (H14 : (0 < 14)%nat) by lia.
  assert (Hg : Forall zero_fin (map (fun _ : npfloat => Fin 0) d)).
  { apply Forall_forall. intros a Ha. apply in_map_iff in Ha as (b & <- & _).
    exists 0. split; reflexivity. }
  assert (Hl : Forall zero_fin (map (fun _ : npfloat => fneg (Fin 0)) d)).
  { apply Forall_forall. intros a Ha. apply in_map_iff in Ha as (b & <- & _).
    exists (- 0). split; [reflexivity | lra]. }
  destruct (window_mean_zero 14 _ H14 Hg) as [[Hlen ->]|[Hlen ->]];
    destruct (window_mean_zero 14 _ H14 Hl) as [[Hlen' ->]|[Hlen' ->]];
    rewrite length_map in Hlen, Hlen'; try lia.
  - rewrite rsi_entry_undefined by reflexivity. reflexivity.
  - rewrite rsi_entry_flat. reflexivity.
Qed.

Lemma fsum_const (x : R) (n : nat) : fsum (repeat (Fin x) n) = Fin (INR n * x).
Proof.
  induction n as [|n IH]; unfold fsum in *.
  - cbn [repeat fold_right INR]. f_equal. lra.
  - cbn [repeat fold_right]. rewrite IH. cbn [fadd]. f_equal. rewrite S_INR. lra.
Qed.

Lemma skipn_repeat {A : Type} (a : A) (k n : nat) :
  skipn k (repeat a n) = repeat a (n - k).
Proof.
  revert n. induction k as [|k IH]; intros n; [now rewrite Nat.sub_0_r|].
  destruct n as [|n]; [reflexivity|]. cbn [repeat skipn]. apply IH.
Qed.

Lemma window_mean_const (window : nat) (x : R) (n : nat) :
  (0 < window)%nat ->
  window_mean window (repeat (Fin x) n) = NaN
  \/ window_mean window (repeat (Fin x) n) = Fin x.
Proof.
  intros Hw. unfold window_mean. rewrite repeat_length.
  destruct (Nat.ltb_spec n window) as [Hlt|Hge]; [now left|]. right.
  rewrite skipn_repeat, fsum_const.
  replace (n - (n - window))%nat with window by lia.
  pose proof (INR_positive window Hw).
  rewrite fdiv_fin by lra. f_equal. field. lra.
Qed.

Lemma flat_trend (x : R) (n : nat) :
  (0 < n)%nat -> summary_trend (repeat x n) = Ok Bearish.
Proof.
  intros Hn. rewrite summary_trend_eq by now apply repeat_nonempty.
  rewrite map_repeat.
  rewrite !rolling_mean_last by now apply repeat_nonempty.
  destruct (window_mean_const 20 x n) as [->| ->]; [lia | |];
    (destruct (window_mean_const 50 x n) as [->| ->]; [lia | |]);
    try reflexivity.
  cbn [fgt]. unfold gtb. now rewrite ltb_false by lra.
Qed.

Lemma ewm_from_const (alpha x : R) (n : nat) :
  ewm_from alpha x (repeat x n) = repeat x n.
Proof.
  induction n as [|n IH]; cbn [repeat ewm_from]; [reflexivity|].
  replace ((1 - alpha) * x + alpha * x) with x by ring.
  now rewrite IH.
Qed.

Lemma ewm_mean_const (span x : R) (n : nat) :
  ewm_mean span (repeat x n) = repeat x n.
Proof.
  destruct n as [|n]; [reflexivity|].
  cbn [repeat ewm_mean]. now rewrite ewm_from_const.
Qed.

Lemma map2_repeat {A B C : Type} (f : A -> B -> C) (a : A) (b : B) (n : nat) :
  map2 f (repeat a n) (repeat b n) = repeat (f a b) n.
Proof. induction n as [|n IH]; cbn [repeat map2]; [reflexivity | now rewrite IH]. Qed.

Lemma flat_macd (x : R) (n : nat) :
  (0 < n)%nat -> summary_macd_signal (repeat x n) = Ok Sell.
Proof.
  intros Hn. rewrite summary_macd_signal_eq by now apply repeat_nonempty.
  rewrite !ewm_mean_const, map2_repeat, ewm_mean_const.
  destruct n as [|n]; [lia|]. rewrite iloc_last_repeat.
  unfold gtb. now rewrite ltb_false by lra.
Qed.

Lemma flat_day_change (x : R) (n : nat) :
  x <> 0 -> (0 < n)%nat -> summary_day_change (repeat x n) = Ok (Fin 0).
Proof.
  intros Hx Hn. destruct n as [|n]; [lia|].
  rewrite (summary_day_change_eq _ x) by apply iloc_last_repeat.
  rewrite nth_repeat.
  destruct (_ <? _)%nat; rewrite fdiv_fin by exact Hx;
    cbn [fsub fneg fadd fmul]; do 2 f_equal; field; exact Hx.
Qed.

Lemma relative_changes_flat (x : R) (n : nat) :
  x <> 0 -> Forall zero_fin (relative_changes x (repeat x n)).
Proof.
  intros Hx. induction n as [|n IH]; cbn [repeat relative_changes]; constructor;
    [|exact IH].
  rewrite fdiv_fin by exact Hx. cbn [fsub fneg fadd].
  eexists. split; [reflexivity | field; exact Hx].
Qed.

Lemma dropna_zero (s : list npfloat) : Forall zero_fin s -> dropna s = s.
Proof.
  intros H. unfold dropna. apply filter_all. intros a Ha.
  rewrite Forall_forall in H. destruct (H a Ha) as (z & -> & _). reflexivity.
Qed.

Lemma std_zero (s : list npfloat) :
  Forall zero_fin s -> std s = NaN \/ std s = Fin 0.
Proof.
  intros Hs. unfold std.
  destruct (Nat.leb_spec (length s) 1) as [Hle|Hgt]; [now left|]. right.
  cbv zeta.
  assert (Hn : 0 < INR (length s)) by (apply INR_positive; lia).
  assert (Hn1 : 0 < INR (length s - 1)) by (apply INR_positive; lia).
  destruct (fsum_zero _ Hs) as (t & -> & ->).
  rewrite fdiv_fin by lra.
  assert (Hsqr : Forall zero_fin
                   (map (fun a => fmul (fsub (Fin (0 / INR (length s))) a)
                                       (fsub (Fin (0 / INR (length s))) a)) s)).
  { apply Forall_forall. intros b Hb. apply in_map_iff in Hb as (a & <- & Ha).
    rewrite Forall_forall in Hs. destruct (Hs a Ha) as (z & -> & ->).
    cbn [fsub fneg fadd fmul]. eexists. split; [reflexivity|].
    unfold Rdiv. rewrite Rmult_0_l. ring. }
  destruct (fsum_zero _ Hsqr) as (u & -> & ->).
  rewrite fdiv_fin by lra. cbn [fsqrt].
  rewrite ltb_false by (unfold Rdiv; rewrite Rmult_0_l; lra).
  f_equal. unfold Rdiv. rewrite Rmult_0_l. apply sqrt_0.
Qed.

Lemma dropna_nan_cons (s : list npfloat) : dropna (NaN :: s) = dropna s.
Proof. reflexivity. Qed.

Lemma flat_volatility (x : R) (n : nat) :
  x <> 0 -> (0 < n)%nat -> summary_volatility (repeat x n) = Ok (Fin 0).
Proof.
  intros Hx Hn. destruct n as [|n]; [lia|].
  pose proof (relative_changes_flat x n Hx) as Hz.
  unfold summary_volatility. cbn [repeat pct_change].
  rewrite dropna_nan_cons, (dropna_zero _ Hz).
  destruct (Nat.ltb 0 (length (relative_changes x (repeat x n)))).
  - destruct (std_zero _ Hz) as [-> | ->]; cbn [fmul isnan].
    + replace 0.0 with 0 by lra. reflexivity.
    + rewrite Rmult_0_l. reflexivity.
  - cbn [isnan]. replace 0.0 with 0 by lra. reflexivity.
Qed.

(** X21.  A flat market, any number of bars at one close other than
    zero, is reported with a day change of 0, an RSI of 50, a volatility
    of 0, the trend "Bearish" and the MACD signal "Sell". *)
Theorem flat_market_summary (x : R) (n : nat) :
  x <> 0 -> (0 < n)%nat ->
  summary_day_change (repeat x n) = Ok (Fin 0)
  /\ summary_rsi (repeat x n) = Ok (Fin 50)
  /\ summary_volatility (repeat x n) = Ok (Fin 0)
  /\ summary_trend (repeat x n) = Ok Bearish
  /\ summary_macd_signal (repeat x n) = Ok Sell.
Proof.
  intros Hx Hn.
  split; [now apply flat_day_change|].
  split; [now apply flat_rsi|].
  split; [now apply flat_volatility|].
  split; [now apply flat_trend | now apply flat_macd].
Qed.

Lemma flat_market_summary_witness :
  summary_day_change (repeat 1.1 60) = Ok (Fin 0)
  /\ summary_rsi (repeat 1.1 60) = Ok (Fin 50)
  /\ summary_volatility (repeat 1.1 60) = Ok (Fin 0)
  /\ summary_trend (repeat 1.1 60) = Ok Bearish
  /\ summary_macd_signal (repeat 1.1 60) = Ok Sell.
Proof. apply (flat_market_summary 1.1 60); [lra | lia]. Defined.

(** * Steady rises and falls *)

Lemma differences_rising (previous : R) (values : list R) :
  StronglySorted Rlt (previous :: values) ->
  Forall positive_fin (differences previous values).
Proof.
  revert previous. induction values as [|x rest IH]; intros previous Hs;
    cbn [differences]; constructor.
  - inversion Hs as [|? ? _ Hall]; subst. inversion Hall; subst.
    exists (x - previous). split; [reflexivity | lra].
  - apply IH. now inversion Hs.
Qed.

Lemma differences_falling (previous : R) (values : list R) :
  StronglySorted Rgt (previous :: values) ->
  Forall (fun a => exists d, a = Fin d /\ d < 0) (differences previous values).
Proof.
  revert previous. induction values as [|x rest IH]; intros previous Hs;
    cbn [differences]; constructor.
  - inversion Hs as [|? ? _ Hall]; subst. inversion Hall; subst.
    exists (x - previous). split; [reflexivity | lra].
  - apply IH. now inversion Hs.
Qed.

Lemma fsum_positive (s : list npfloat) :
  Forall nonneg_fin s -> Exists positive_fin s ->
  positive_fin (fsum s).
Proof.
  induction 1 as [|a rest (x & -> & Hx) Hrest IH]; intros Hex.
  - inversion Hex.
  - destruct (fsum_nonneg _ Hrest) as (t & Ht & Ht0).
    unfold fsum in *. cbn [fold_right].
    inversion Hex as [? ? (d & Hd & Hd0)|? ? Hex']; subst.
    + injection Hd as ->. rewrite Ht. exists (d + t). split; [reflexivity | lra].
    + destruct (IH Hex') as (u & Hu & Hu0). rewrite Hu.
      exists (x + u). split; [reflexivity | lra].
Qed.

Lemma Exists_skipn {A : Type} (P : A -> Prop) (k : nat) (l : list A) :
  Forall P l -> (k < length l)%nat -> Exists P (skipn k l).
Proof.
  revert l. induction k as [|k IH]; intros [|a rest] Hall Hlen; simpl in Hlen; try lia.
  - cbn [skipn]. left. now inversion Hall.
  - cbn [skipn]. apply IH; [now inversion Hall | lia].
Qed.

Lemma positive_nonneg (s : list npfloat) : Forall positive_fin s -> Forall nonneg_fin s.
Proof.
  apply Forall_impl. intros a (x & -> & Hx). exists x. split; [reflexivity | lra].
Qed.

(** The mean of a full window over a zero followed by positive entries
    is positive. *)
Lemma window_mean_positive (z : npfloat) (ds : list npfloat) :
  zero_fin z -> Forall positive_fin ds -> (14 <= length (z :: ds))%nat ->
  positive_fin (window_mean 14 (z :: ds)).
Proof.
  intros (z0 & -> & Hz) Hds Hlen. unfold window_mean.
  destruct (Nat.ltb_spec (length (Fin z0 :: ds)) 14) as [Hlt|_]; [lia|].
  assert (Hall : Forall nonneg_fin (Fin z0 :: ds)).
  { constructor; [exists z0; split; [reflexivity | lra] | now apply positive_nonneg]. }
  assert (Hex : Exists positive_fin (skipn (length (Fin z0 :: ds) - 14) (Fin z0 :: ds))).
  { cbn [length] in *.
    destruct (length ds - 13)%nat as [|k] eqn:E.
    - replace (S (length ds) - 14)%nat with 0%nat by lia. cbn [skipn].
      right. destruct ds as [|d rest]; [simpl in Hlen; lia|].
      left. now inversion Hds.
    - replace (S (length ds) - 14)%nat with (S k) by lia. cbn [skipn].
      apply Exists_skipn; [exact Hds | lia]. }
  destruct (fsum_positive _ (Forall_skipn _ _ _ Hall) Hex) as (t & -> & Ht).
  assert (H14 : INR 14 = 14) by (simpl; lra).
  rewrite fdiv_fin by lra. exists (t / INR 14). split; [reflexivity|].
  rewrite H14. lra.
Qed.

Lemma rsi_entry_no_gain (l : R) : 0 < l -> rsi_entry (Fin 0) (Fin l) = Fin 0.
Proof.
  intros Hl. unfold rsi_entry, rsi_quotient.
  rewrite (fdiv_fin 0 l) by lra. cbn [fadd].
  replace (1 + 0 / l) with 1 by (field; lra).
  rewrite fdiv_fin by lra. cbn [isnan fsub fneg fadd]. f_equal. lra.
Qed.

(** X26.  On at least 14 bars the reported RSI is 100 when every close
    is above the one before, and 0 when every close is below the one
    before. *)
Theorem rsi_of_monotone_series (close : list R) :
  (14 <= length close)%nat ->
  (StronglySorted Rlt close -> summary_rsi close = Ok (Fin 100))
  /\ (StronglySorted Rgt close -> summary_rsi close = Ok (Fin 0)).
Proof.
  intros Hlen.
  destruct close as [|c rest] eqn:Ec; [simpl in Hlen; lia|].
  assert (Hne : c :: rest <> []) by discriminate.
  assert (Hzero : zero_fin (Fin 0)) by (exists 0; split; reflexivity).
  assert (Hlen' : forall ds, length ds = length rest -> (14 <= length (Fin 0 :: ds))%nat)
    by (intros ds E; cbn [length] in *; lia).
  assert (H14 : (0 < 14)%nat) by lia.
  split; intros Hs; rewrite summary_rsi_eq by exact Hne; cbv zeta;
    unfold avg_gain, avg_loss, where_; cbn [diff map fgt0 flt0 fneg].
  - pose proof (differences_rising c rest Hs) as Hd.
    assert (Hg : map (fun a => if fgt0 a then a else Fin 0) (differences c rest)
                 = differences c rest).
    { rewrite <- (map_id (differences c rest)) at 2. apply map_ext_in. intros a Ha.
      rewrite Forall_forall in Hd. destruct (Hd a Ha) as (d & -> & Hd0).
      cbn [fgt0]. unfold gtb. now rewrite ltb_true. }
    assert (Hl : Forall zero_fin
                   (Fin (- 0) :: map fneg (map (fun a => if flt0 a then a else Fin 0)
                                             (differences c rest)))).
    { constructor; [exists (- 0); split; [reflexivity | lra]|].
      apply Forall_forall. intros b Hb.
      apply in_map_iff in Hb as (a' & <- & Ha'). apply in_map_iff in Ha' as (a & <- & Ha).
      rewrite Forall_forall in Hd. destruct (Hd a Ha) as (d & -> & Hd0).
      cbn [flt0]. rewrite ltb_false by lra. exists (- 0). split; [reflexivity | lra]. }
    rewrite Hg.
    destruct (window_mean_positive (Fin 0) _ Hzero Hd) as (g & -> & Hg0).
    { apply Hlen'. apply differences_length. }
    destruct (window_mean_zero 14 _ H14 Hl) as [[Hshort _]|[_ ->]].
    { cbn [length] in Hshort. rewrite !length_map, differences_length in Hshort.
      cbn [length] in Hlen. lia. }
    rewrite rsi_entry_no_loss by exact Hg0. reflexivity.
  - pose proof (differences_falling c rest Hs) as Hd.
    assert (Hg : Forall zero_fin
                   (Fin 0 :: map (fun a => if fgt0 a then a else Fin 0)
                               (differences c rest))).
    { constructor; [exact Hzero|].
      apply Forall_forall. intros b Hb. apply in_map_iff in Hb as (a & <- & Ha).
      rewrite Forall_forall in Hd. destruct (Hd a Ha) as (d & -> & Hd0).
      cbn [fgt0]. unfold gtb. rewrite ltb_false by lra. exact Hzero. }
    assert (Hl : Forall positive_fin
                   (map fneg (map (fun a => if flt0 a then a else Fin 0)
                                (differences c rest)))).
    { apply Forall_forall. intros b Hb.
      apply in_map_iff in Hb as (a' & <- & Ha'). apply in_map_iff in Ha' as (a & <- & Ha).
      rewrite Forall_forall in Hd. destruct (Hd a Ha) as (d & -> & Hd0).
      cbn [flt0]. rewrite ltb_true by lra. exists (- d). split; [reflexivity | lra]. }
    destruct (window_mean_zero 14 _ H14 Hg) as [[Hshort _]|[_ ->]].
    { cbn [length] in Hshort. rewrite length_map, differences_length in Hshort.
      cbn [length] in Hlen. lia. }
    destruct (window_mean_positive (Fin (- 0)) _
                ltac:(exists (- 0); split; [reflexivity | lra]) Hl) as (l & -> & Hl0).
    { cbn [length]. rewrite !length_map, differences_length. cbn [length] in Hlen. lia. }
    rewrite rsi_entry_no_gain by exact Hl0. reflexivity.
Qed.

Lemma rsi_of_monotone_series_witness : summary_rsi rising_close = Ok (Fin 100).
Proof.
  apply (proj1 (rsi_of_monotone_series rising_close ltac:(simpl; lia))).
  unfold rising_close.
  repeat (apply SSorted_cons; [|repeat (apply Forall_cons; [lra|]); apply Forall_nil]).
  apply SSorted_nil.
Defined.

(** ** The trend of a steady rise *)

Lemma fsum_map_Fin (l : list R) : fsum (map Fin l) = Fin (rsum l).
Proof.
  unfold fsum, rsum. induction l as [|x rest IH]; cbn [map fold_right];
    [reflexivity | now rewrite IH].
Qed.

Lemma rsum_app (l1 l2 : list R) : rsum (l1 ++ l2) = rsum l1 + rsum l2.
Proof.
  unfold rsum. induction l1 as [|x rest IH]; cbn [app fold_right]; [lra|].
  rewrite IH. lra.
Qed.

Lemma rsum_below (b : R) (l : list R) :
  (forall a, In a l -> a < b) -> l <> [] -> rsum l < INR (length l) * b.
Proof.
  unfold rsum. induction l as [|x rest IH]; intros H Hne; [contradiction|].
  cbn [fold_right length]. rewrite S_INR.
  assert (Hx : x < b) by (apply H; now left).
  destruct rest as [|y rest'].
  - cbn [fold_right length INR]. lra.
  - assert (fold_right Rplus 0 (y :: rest') < INR (length (y :: rest')) * b).
    { apply IH; [|discriminate]. intros a Ha. apply H. now right. }
    lra.
Qed.

Lemma rsum_above (b : R) (l : list R) :
  (forall c, In c l -> b <= c) -> INR (length l) * b <= rsum l.
Proof.
  unfold rsum. induction l as [|x rest IH]; intros H.
  - cbn [fold_right length INR]. lra.
  - cbn [fold_right length]. rewrite S_INR.
    assert (Hx : b <= x) by (apply H; now left).
    assert (INR (length rest) * b <= fold_right Rplus 0 rest)
      by (apply IH; intros c Hc; apply H; now right).
    lra.
Qed.

Lemma StronglySorted_skipn {A : Type} (R : A -> A -> Prop) (k : nat) (l : list A) :
  StronglySorted R l -> StronglySorted R (skipn k l).
Proof.
  revert l. induction k as [|k IH]; intros l Hs; [exact Hs|].
  destruct l as [|a rest]; [exact Hs|]. cbn [skipn]. apply IH. now inversion Hs.
Qed.

Lemma StronglySorted_app_lt (l1 l2 : list R) :
  StronglySorted Rlt (l1 ++ l2) ->
  forall a c, In a l1 -> In c l2 -> a < c.
Proof.
  induction l1 as [|x rest IH]; intros Hs a c Ha Hc; [destruct Ha|].
  cbn [app] in Hs. inversion Hs as [|? ? Hrest Hall]; subst.
  destruct Ha as [<-|Ha].
  - rewrite Forall_forall in Hall. apply Hall. apply in_or_app. now right.
  - now apply (IH Hrest).
Qed.

Lemma StronglySorted_head_le (b : R) (l : list R) :
  StronglySorted Rlt (b :: l) -> forall c, In c (b :: l) -> b <= c.
Proof.
  intros Hs c [<-|Hc]; [lra|].
  inversion Hs as [|? ? _ Hall]; subst. rewrite Forall_forall in Hall.
  left. now apply Hall.
Qed.

Lemma window_mean_Fin (window : nat) (close : list R) :
  (0 < window <= length close)%nat ->
  window_mean window (map Fin close)
  = Fin (rsum (skipn (length close - window) close) / INR window).
Proof.
  intros [Hw Hlen]. unfold window_mean. rewrite length_map.
  destruct (Nat.ltb_spec (length close) window) as [Hlt|_]; [lia|].
  rewrite skipn_map, fsum_map_Fin.
  pose proof (INR_positive window Hw).
  now rewrite fdiv_fin by lra.
Qed.

(** X27.  On at least 50 bars whose closes rise from each bar to the
    next, the 20-bar mean is above the 50-bar mean and the trend is
    "Bullish". *)
Theorem trend_of_rising_series (close : list R) :
  (50 <= length close)%nat -> StronglySorted Rlt close ->
  summary_trend close = Ok Bullish.
Proof.
  intros Hlen Hs.
  assert (Hne : close <> []) by (destruct close; [simpl in Hlen; lia | discriminate]).
  rewrite summary_trend_eq by exact Hne.
  rewrite !rolling_mean_last by now apply map_Fin_nonempty.
  rewrite (window_mean_Fin 20), (window_mean_Fin 50) by lia.
  set (w50 := skipn (length close - 50) close).
  assert (Hw50 : length w50 = 50%nat) by (unfold w50; rewrite length_skipn; lia).
  assert (E20 : skipn (length close - 20) close = skipn 30 w50).
  { unfold w50. rewrite skipn_skipn. f_equal. lia. }
  rewrite E20.
  assert (Hsorted : StronglySorted Rlt (firstn 30 w50 ++ skipn 30 w50)).
  { rewrite firstn_skipn. unfold w50. now apply StronglySorted_skipn. }
  rewrite <- (firstn_skipn 30 w50) at 2. rewrite rsum_app.
  assert (H30 : length (firstn 30 w50) = 30%nat) by (rewrite length_firstn; lia).
  assert (H20 : length (skipn 30 w50) = 20%nat) by (rewrite length_skipn; lia).
  destruct (skipn 30 w50) as [|b last20] eqn:El; [simpl in H20; lia|].
  assert (Hfirst : rsum (firstn 30 w50) < INR (length (firstn 30 w50)) * b).
  { apply rsum_below.
    - intros a Ha. apply (StronglySorted_app_lt _ _ Hsorted a b Ha). now left.
    - intros E. rewrite E in H30. discriminate. }
  assert (Hlast : INR (length (b :: last20)) * b <= rsum (b :: last20)).
  { apply rsum_above. apply StronglySorted_head_le.
    rewrite <- El. apply StronglySorted_skipn.
    unfold w50. now apply StronglySorted_skipn. }
  rewrite H30 in Hfirst. rewrite H20 in Hlast.
  assert (I20 : INR 20 = 20) by (simpl; lra).
  assert (I30 : INR 30 = 30) by (simpl; lra).
  assert (I50 : INR 50 = 50) by (simpl; lra).
  rewrite I20, I30, I50 in *.
  cbn [fgt]. unfold gtb. rewrite ltb_true by lra. reflexivity.
Qed.

Lemma trend_of_rising_series_witness :
  summary_trend (map INR (seq 1 50)) = Ok Bullish.
Proof.
  apply trend_of_rising_series; [simpl; lia|].
  cbv [seq map].
  repeat (apply SSorted_cons;
          [|repeat (apply Forall_cons; [apply lt_INR; lia|]); apply Forall_nil]).
  apply SSorted_nil.
Defined.

(** * Pip values *)

Lemma split_no_slash (s : string) : contains "/" s = false -> split "/" s = [s].
Proof.
  unfold contains. induction s as [|a rest IH]; [reflexivity|].
  cbn [String.index String.prefix split].
  destruct (ascii_dec "/" a) as [<-|Hne].
  - destruct rest; discriminate.
  - destruct (Ascii.eqb_spec a "/") as [->|_]; [contradiction|].
    destruct (String.index 0 "/" rest); [discriminate|].
    intros _. now rewrite IH.
Qed.

(** X22.  For a symbol that ends with ["USD"] and does not start with
    it, the pip value is the pip size (0.01 if the symbol contains
    ["JPY"], else 0.0001) times the amount whenever the fetch of the
    symbol does not raise: the rate is not used, and an empty frame is
    as good as any. *)
Theorem pip_value_usd_quoted
    (history : TickerHistory) (symbol : string) (amount : R) (df : list R) :
  startswith "USD" symbol = false ->
  endswith "USD" symbol = true ->
  history (format_symbol symbol) = Ok df ->
  calculate_pip_value history symbol amount
  = Ok (Fin ((if contains "JPY" symbol then 0.01 else 0.0001) * amount)).
Proof.
  intros Hstart Hend Hfetch.
  unfold calculate_pip_value, get_current_rate, fetch_currency_rate.
  rewrite Hfetch. cbn [bind].
  destruct (rev df); rewrite Hstart, Hend; reflexivity.
Qed.

Lemma pip_value_usd_quoted_witness :
  calculate_pip_value (fun _ => Ok []) "EUR/USD" 1000
  = Ok (Fin ((if contains "JPY" "EUR/USD" then 0.01 else 0.0001) * 1000)).
Proof.
  apply (pip_value_usd_quoted (fun _ => Ok []) "EUR/USD" 1000 []); reflexivity.
Defined.

(** X23.  A symbol without ["/"] that neither starts nor ends with
    ["USD"] has no pip value: the call raises for every market-data
    service and every amount, although [format_symbol] accepts such a
    symbol. *)
Theorem pip_value_needs_slash
    (history : TickerHistory) (symbol : string) (amount : R) :
  contains "/" symbol = false ->
  startswith "USD" symbol = false ->
  endswith "USD" symbol = false ->
  calculate_pip_value history symbol amount = Raise Exception.
Proof.
  intros Hslash Hstart Hend. unfold calculate_pip_value.
  destruct (get_current_rate history symbol) as [rate|]; [|reflexivity].
  rewrite Hstart, Hend, (split_no_slash _ Hslash). reflexivity.
Qed.

Lemma pip_value_needs_slash_witness :
  calculate_pip_value (fun _ => Ok [0.85]) "EURGBP" 1000 = Raise Exception.
Proof.
  apply (pip_value_needs_slash (fun _ => Ok [0.85]) "EURGBP" 1000); reflexivity.
Defined.
